(** * autopilotpattern/mysql: the ContainerPilot handlers of [bin/manage.py]

    A shallow embedding of the handlers ([Node.is_primary], [health],
    [on_change], [snapshot_task], [create_snapshot],
    [assert_initialized_for_state], [run_as_primary], [run_as_replica]) as
    computations in a state-and-exception monad.  The collaborators of the
    handlers (the MySQL client, the Consul client, the Manta client, the
    ContainerPilot configuration object, the lock file and the clock) are
    reached through one interface, [Collaborators], whose answers the
    handlers cannot predict; every call made through it is recorded in a
    trace.  The [debug] decorator of [manager.utils] only logs and is left
    out; [pre_start] is not needed by the properties below. *)

From Stdlib Require Import String List Bool ZArith Lia.
Import ListNotations.
Local Open Scope string_scope.

(** ** Data model *)

(** [manager.utils]: the three values of [cp.state]. *)
Inductive Role : Type := PRIMARY | REPLICA | UNASSIGNED.

Definition Role_eqb (a b : Role) : bool :=
  match a, b with
  | PRIMARY, PRIMARY | REPLICA, REPLICA | UNASSIGNED, UNASSIGNED => true
  | _, _ => false
  end.

(** The exception classes the handlers name, [SystemExit] as raised by
    [sys.exit], and any other exception a collaborator may raise. *)
Inductive exn : Type :=
| MySQLError
| WaitTimeoutError
| UnknownPrimary
| IOError
| OSError
| IndexError
| KeyError
| CalledProcessError
| ConsulError
| SystemExit (code : Z)
| OtherError (what : string).

(** A Python value that is a [str] or [None]. *)
Definition pystr : Type := option string.

(** Truth value of a [pystr]: [None] and the empty string are false. *)
Definition truthy (v : pystr) : bool :=
  match v with
  | None => false
  | Some s => negb (String.eqb s EmptyString)
  end.

(** [v == s] for a [str] [s]. *)
Definition pystr_eqb (v : pystr) (s : string) : bool :=
  match v with
  | None => false
  | Some t => String.eqb t s
  end.

(** [a != b] on two values that are [str] or [None]. *)
Definition pystr_neb (a b : pystr) : bool :=
  match a, b with
  | None, None => false
  | Some x, Some y => negb (String.eqb x y)
  | _, _ => true
  end.

(** A result row of [mysql.query]: a dict from column name to value. *)
Definition row : Type := list (string * string).

Fixpoint dict_get (k : string) (d : row) : option string :=
  match d with
  | [] => None
  | (k', v) :: d' => if String.eqb k k' then Some v else dict_get k d'
  end.

(** One entry of [consul.client.health.service(...)[1]]; [None] stands for
    an entry on which [instance['Service']['Address']] raises [KeyError]. *)
Definition instance : Type := option string.

Definition fd : Type := nat.
Definition conn : Type := nat.

(** [fcntl] lock flags. *)
Definition LOCK_EX : Z := 2.
Definition LOCK_NB : Z := 4.
Definition LOCK_UN : Z := 8.

(** The identity of a node and the credentials it carries
    ([Node.__init__], [node.mysql.repl_user], [node.mysql.repl_password]). *)
Record Node : Type := mkNode {
  hostname : string;
  name : string;
  ip : string;
  repl_user : string;
  repl_password : string
}.

(** The calls the handlers make on their collaborators, indexed by the type
    of the value the call returns. *)
Inductive Op : Type -> Type :=
| MysqlGetPrimary : Op (pystr * pystr)
| MysqlQuery (q : string) : Op (list row)
| MysqlExecute (q : string) : Op unit
| MysqlFailover (ips : list string) : Op unit
| MysqlWaitForConnection : Op (option conn)
| MysqlSetTimezoneInfo : Op unit
| MysqlSetupRootUser (c : conn) : Op unit
| MysqlCreateDb (c : conn) : Op unit
| MysqlCreateDefaultUser (c : conn) : Op unit
| MysqlCreateReplUser (c : conn) : Op unit
| MysqlExpireRootPassword (c : conn) : Op unit
| MysqlSetupReplication (primary_ip : pystr) : Op unit
| ConsulGetPrimary (timeout : option Z) : Op (pystr * pystr)
| ConsulRenewSession : Op unit
| ConsulGet (key : string) : Op pystr
| ConsulPut (key : string) (value : string) : Op unit
| ConsulCreateSession (key : string) (ttl : Z) : Op string
| ConsulLock (key : string) (value : string) (session_id : string) : Op bool
| ConsulUnlock (key : string) (session_id : string) : Op unit
| ConsulIsLocked (key : string) : Op bool
| ConsulHealthService (service : Role) (passing : bool) : Op (list instance)
| ConsulIsCheckHealthy (key : string) : Op bool
| ConsulPassCheck (key : string) : Op bool
| ConsulRegisterCheck (key : string) (ttl : string) : Op unit
| ConsulMarkAsPrimary (name : string) : Op bool
| MantaPutBackup (backup_id : string) (path : string) : Op unit
| CpUpdate : Op bool
| CpReload : Op unit
| FileOpen (path : string) (mode : string) : Op fd
| FileClose (f : fd) : Op unit
| Flock (f : fd) (flags : Z) : Op unit
| UtcNowStrftime (fmt : string) : Op string
| Innobackupex (user : string) (password : string) (out : fd) : Op unit
| Sleep (secs : Z) : Op unit.

(** A call that was made, as the trace keeps it. *)
Inductive Event : Type :=
| Called {R : Type} (op : Op R).

Definition is_setup_replication (e : Event) : bool :=
  match e with
  | Called (MysqlSetupReplication _) => true
  | Called _ => false
  end.

(** How a computation ends: with a value, with a raised exception, or not
    within the number of loop iterations it was given. *)
Inductive Res (A : Type) : Type :=
| Ret (a : A)
| Raise (e : exn)
| OutOfFuel.
Arguments Ret {A} a.
Arguments Raise {A} e.
Arguments OutOfFuel {A}.

(** The exit status of the process that runs a handler: [sys.exit(n)] gives
    [n], any other uncaught exception gives 1. *)
Definition exit_status {A : Type} (r : Res A) : option Z :=
  match r with
  | Ret _ => Some 0%Z
  | Raise (SystemExit n) => Some n
  | Raise _ => Some 1%Z
  | OutOfFuel => None
  end.

Inductive Level : Type := DEBUG | INFO | ERROR.

(** The constants of [manager.utils] and the collaborators: a type of states
    of the world around the handler, and the answer and next world state for
    each call. *)
Class Collaborators : Type := {
  PRIMARY_KEY : string;
  BACKUP_TTL_KEY : string;
  LAST_BINLOG_KEY : string;
  LAST_BACKUP_KEY : string;
  BACKUP_TTL : string;
  BACKUP_NAME : string;
  World : Type;
  answer : forall R : Type, Op R -> World -> Res R * World
}.

Section Monad.

Context {C : Collaborators}.

(** What a handler can change: [node.cp.state], the directory
    [/var/run/init.lock], the world behind the collaborators, the calls made
    so far (latest last) and the log lines written (latest last). *)
Record St : Type := mkSt {
  cp_state : Role;
  init_lock : bool;
  world : World;
  trace : list Event;
  logs : list (Level * string)
}.

Definition M (A : Type) : Type := St -> Res A * St.

Definition ret {A : Type} (a : A) : M A := fun s => (Ret a, s).

Definition raise {A : Type} (e : exn) : M A := fun s => (Raise e, s).

Definition bind {A B : Type} (m : M A) (k : A -> M B) : M B :=
  fun s =>
    match m s with
    | (Ret a, s') => k a s'
    | (Raise e, s') => (Raise e, s')
    | (OutOfFuel, s') => (OutOfFuel, s')
    end.

(** [try: m except <classes in catches>: h]. *)
Definition try_except {A : Type} (m : M A) (catches : exn -> bool)
    (h : exn -> M A) : M A :=
  fun s =>
    match m s with
    | (Raise e, s') => if catches e then h e s' else (Raise e, s')
    | other => other
    end.

(** [try: m finally: f]: [f] runs however [m] ends; an exception raised by
    [f] replaces the outcome of [m]. *)
Definition try_finally {A : Type} (m : M A) (f : M unit) : M A :=
  fun s =>
    match m s with
    | (OutOfFuel, s') => (OutOfFuel, s')
    | (r, s') =>
        match f s' with
        | (Ret _, s'') => (r, s'')
        | (Raise e, s'') => (Raise e, s'')
        | (OutOfFuel, s'') => (OutOfFuel, s'')
        end
    end.

End Monad.

Declare Scope handler_scope.
Delimit Scope handler_scope with handler.
Notation "x <- m ;; k" := (bind m (fun x => k))
  (at level 61, m at next level, right associativity) : handler_scope.
Notation "m ;; k" := (bind m (fun _ => k))
  (at level 61, right associativity) : handler_scope.
Local Open Scope handler_scope.

Section Handlers.

Context {C : Collaborators}.

Definition get_state : M Role := fun s => (Ret (cp_state s), s).

Definition set_state (r : Role) : M unit :=
  fun s => (Ret tt, mkSt r (init_lock s) (world s) (trace s) (logs s)).

Definition log (l : Level) (msg : string) : M unit :=
  fun s => (Ret tt, mkSt (cp_state s) (init_lock s) (world s) (trace s)
                         (logs s ++ [(l, msg)])).

(** A call on a collaborator: the world answers and moves on, the call is
    appended to the trace. *)
Definition call {R : Type} (op : Op R) : M R :=
  fun s =>
    let (r, w) := answer R op (world s) in
    (r, mkSt (cp_state s) (init_lock s) w (trace s ++ [Called op]) (logs s)).

(** [sys.exit(code)]. *)
Definition sys_exit {A : Type} (code : Z) : M A := raise (SystemExit code).

(** [os.mkdir('/var/run/init.lock', 0700)]. *)
Definition mkdir_init_lock : M unit :=
  fun s =>
    if init_lock s then (Raise OSError, s)
    else (Ret tt, mkSt (cp_state s) true (world s) (trace s) (logs s)).

(** [os.rmdir('/var/run/init.lock')]. *)
Definition rmdir_init_lock : M unit :=
  fun s =>
    if init_lock s
    then (Ret tt, mkSt (cp_state s) false (world s) (trace s) (logs s))
    else (Raise OSError, s).

(** ** class Node *)

Definition catches_mysqld_status (e : exn) : bool :=
  match e with
  | MySQLError | WaitTimeoutError | UnknownPrimary => true
  | _ => false
  end.

Definition catches_unknown_primary (e : exn) : bool :=
  match e with
  | UnknownPrimary => true
  | _ => false
  end.

(** The first [try] block of [is_primary]; [Some b] is [return b], [None]
    is falling out of the block. *)
Definition is_primary_via_mysqld (node : Node) : M (option bool) :=
  try_except
    (p <- call MysqlGetPrimary ;;
     let primary_ip := snd p in
     if negb (truthy primary_ip) then ret None
     else if pystr_eqb primary_ip (ip node)
          then set_state PRIMARY ;; ret (Some true)
          else set_state REPLICA ;; ret (Some false))
    catches_mysqld_status
    (fun _ =>
       log DEBUG "could not determine primary via mysqld status: %s" ;;
       ret None).

(** The second [try] block of [is_primary]. *)
Definition is_primary_via_consul (node : Node) : M (option bool) :=
  try_except
    (p <- call (ConsulGetPrimary None) ;;
     let primary_node := fst p in
     if negb (truthy primary_node) then ret None
     else if pystr_eqb primary_node (name node)
          then set_state PRIMARY ;; ret (Some true)
          else set_state REPLICA ;; ret (Some false))
    catches_unknown_primary
    (fun _ =>
       log DEBUG "could not determine primary via Consul: %s" ;;
       ret None).

Definition is_primary (node : Node) : M bool :=
  st <- get_state ;;
  if negb (Role_eqb st UNASSIGNED) then ret (Role_eqb st PRIMARY)
  else
    r <- is_primary_via_mysqld node ;;
    match r with
    | Some b => ret b
    | None =>
        r' <- is_primary_via_consul node ;;
        match r' with
        | Some b => ret b
        | None => set_state UNASSIGNED ;; ret false
        end
    end.

Definition is_replica (node : Node) : M bool :=
  b <- is_primary node ;;
  ret (negb b).

Definition is_snapshot_node (node : Node) : M bool :=
  is_primary node.


(** ** Backups *)

Definition catches_IOError (e : exn) : bool :=
  match e with
  | IOError => true
  | _ => false
  end.

Definition catches_IndexError_KeyError (e : exn) : bool :=
  match e with
  | IndexError | KeyError => true
  | _ => false
  end.

(** ['/tmp/{}'.format(BACKUP_TTL_KEY)]. *)
Definition lockfile_name : string := "/tmp/" ++ BACKUP_TTL_KEY.

(** [try: backup_lock = open(lockfile_name, 'r+')
     except IOError: backup_lock = open(lockfile_name, 'w')]. *)
Definition open_backup_lock : M fd :=
  try_except (call (FileOpen lockfile_name "r+")) catches_IOError
    (fun _ => call (FileOpen lockfile_name "w")).

(** [results[0]['File']]. *)
Definition first_row_File (results : list row) : M string :=
  match results with
  | [] => raise IndexError
  | r :: _ =>
      match dict_get "File" r with
      | Some v => ret v
      | None => raise KeyError
      end
  end.

Definition is_backup_running : M bool :=
  backup_lock <- open_backup_lock ;;
  try_finally
    (try_except
       (call (Flock backup_lock (Z.lor LOCK_EX LOCK_NB)) ;;
        call (Flock backup_lock LOCK_UN) ;;
        ret false)
       catches_IOError
       (fun _ => ret true))
    (call (FileClose backup_lock)).

Definition is_binlog_stale (node : Node) : M bool :=
  results <- call (MysqlQuery "show master status") ;;
  r <- try_except
         (binlog_file <- first_row_File results ;;
          last_binlog_file <- call (ConsulGet LAST_BINLOG_KEY) ;;
          ret (Some (binlog_file, last_binlog_file)))
         catches_IndexError_KeyError
         (fun _ => ret None) ;;
  match r with
  | None => ret true
  | Some (binlog_file, last_binlog_file) =>
      ret (pystr_neb (Some binlog_file) last_binlog_file)
  end.

Definition is_time_for_snapshot : M bool :=
  healthy <- call (ConsulIsCheckHealthy BACKUP_TTL_KEY) ;;
  if healthy then ret false else ret true.

Definition set_backup_ttl (node : Node) : M bool :=
  passed <- call (ConsulPassCheck BACKUP_TTL_KEY) ;;
  if negb passed then
    call (ConsulRegisterCheck BACKUP_TTL_KEY BACKUP_TTL) ;;
    passed' <- call (ConsulPassCheck BACKUP_TTL_KEY) ;;
    if negb passed' then
      log ERROR "Could not register health check for %s" ;;
      ret false
    else ret true
  else ret true.

(** The statements of [create_snapshot] between taking the lock and the
    [except] clause. *)
Definition create_snapshot_body (node : Node) (backup_lock : fd)
    : M (option bool) :=
  call (Flock backup_lock (Z.lor LOCK_EX LOCK_NB)) ;;
  backup_id <- call (UtcNowStrftime BACKUP_NAME) ;;
  f <- call (FileOpen "/tmp/backup.tar" "w") ;;
  try_finally
    (call (Innobackupex (repl_user node) (repl_password node) f))
    (call (FileClose f)) ;;
  log INFO "snapshot completed, uploading to object store" ;;
  call (MantaPutBackup backup_id "/tmp/backup.tar") ;;
  log DEBUG "snapshot uploaded to %s/%s, setting LAST_BACKUP_KEY in Consul" ;;
  call (ConsulPut LAST_BACKUP_KEY backup_id) ;;
  results <- call (MysqlQuery "show master status") ;;
  binlog_file <- first_row_File results ;;
  log DEBUG "setting LAST_BINLOG_KEY in Consul" ;;
  call (ConsulPut LAST_BINLOG_KEY binlog_file) ;;
  ret None.

(** The [finally] clause of [create_snapshot]. *)
Definition create_snapshot_cleanup (backup_lock : fd) : M unit :=
  log DEBUG "unlocking backup lock" ;;
  call (Flock backup_lock LOCK_UN) ;;
  log DEBUG "closing backup file" ;;
  call (FileClose backup_lock).

(** [create_snapshot] returns [None] when it falls off its end and [False]
    from its [except IOError] clause. *)
Definition create_snapshot (node : Node) : M (option bool) :=
  backup_lock <- open_backup_lock ;;
  try_finally
    (try_except (create_snapshot_body node backup_lock) catches_IOError
       (fun _ => ret (Some false)))
    (create_snapshot_cleanup backup_lock).

Definition write_snapshot (node : Node) : M unit :=
  set_backup_ttl node ;;
  create_snapshot node ;;
  ret tt.

Definition snapshot_task (node : Node) : M unit :=
  snapshot_node <- is_snapshot_node node ;;
  bail <- (if negb snapshot_node then ret true else is_backup_running) ;;
  if bail then ret tt
  else
    stale <- is_binlog_stale node ;;
    due <- (if stale then ret true else is_time_for_snapshot) ;;
    if due then write_snapshot node else ret tt.

(** ** run_as_* *)

Definition run_as_primary (node : Node) : M bool :=
  marked <- call (ConsulMarkAsPrimary (name node)) ;;
  if negb marked then ret false
  else
    set_state PRIMARY ;;
    c <- call MysqlWaitForConnection ;;
    match c with
    | Some c =>
        call MysqlSetTimezoneInfo ;;
        call (MysqlSetupRootUser c) ;;
        call (MysqlCreateDb c) ;;
        call (MysqlCreateDefaultUser c) ;;
        call (MysqlCreateReplUser c) ;;
        call (MysqlExpireRootPassword c)
    | None => call (MysqlExecute "STOP SLAVE")
    end ;;
    write_snapshot node ;;
    ret true.

Definition run_as_replica (node : Node) : M unit :=
  log INFO "Setting up replication." ;;
  set_state REPLICA ;;
  p <- call (ConsulGetPrimary (Some 30%Z)) ;;
  call (MysqlSetupReplication (snd p)).

Definition catches_OSError (e : exn) : bool :=
  match e with
  | OSError => true
  | _ => false
  end.

Definition catches_MySQLError (e : exn) : bool :=
  match e with
  | MySQLError => true
  | _ => false
  end.

Definition catches_UnknownPrimary_MySQLError (e : exn) : bool :=
  match e with
  | UnknownPrimary | MySQLError => true
  | _ => false
  end.

(** What [assert_initialized_for_state] does once [os.mkdir] has created
    the lock directory. *)
Definition initialize_for_state (node : Node) : M bool :=
  p <- is_primary node ;;
  st <- get_state ;;
  if p || Role_eqb st UNASSIGNED then
    try_except
      (marked <- run_as_primary node ;;
       if negb marked then
         log ERROR "Tried to mark node %s primary but primary exists, exiting for retry on next check." ;;
         rmdir_init_lock ;;
         sys_exit 1
       else ret tt)
      catches_MySQLError
      (fun _ =>
         log ERROR "Failed to set up %s as primary (%s). Exiting but will retry setup." ;;
         rmdir_init_lock ;;
         sys_exit 1) ;;
    changed <- call CpUpdate ;;
    if changed then call CpReload ;; ret false
    else ret false
  else
    try_except (run_as_replica node) catches_UnknownPrimary_MySQLError
      (fun _ =>
         log ERROR "Failed to set up %s for replication (%s). Exiting for retry on next check." ;;
         rmdir_init_lock ;;
         sys_exit 1) ;;
    ret false.

Definition assert_initialized_for_state (node : Node) : M bool :=
  existed <- try_except (mkdir_init_lock ;; ret false) catches_OSError
               (fun _ => ret true) ;;
  if existed then ret true else initialize_for_state node.

(** ** Top-level handlers *)

Definition health (node : Node) : M unit :=
  initialized <- assert_initialized_for_state node ;;
  if negb initialized then ret tt
  else
    p <- is_primary node ;;
    if p then
      call ConsulRenewSession ;;
      call (MysqlQuery "select 1") ;;
      ret tt
    else
      r <- is_replica node ;;
      if r then
        rows <- call (MysqlQuery "show slave status") ;;
        match rows with
        | [] => log ERROR "Replica is not replicating." ;; sys_exit 1
        | _ :: _ => ret tt
        end
      else
        log ERROR "Cannot determine MySQL state; failing health check." ;;
        sys_exit 1.

(** [if node.cp.update(): node.consul.put(PRIMARY_KEY, node.hostname);
    node.cp.reload()], which [on_change] has twice. *)
Definition update_and_publish (node : Node) : M unit :=
  changed <- call CpUpdate ;;
  if changed then
    call (ConsulPut PRIMARY_KEY (hostname node)) ;;
    call CpReload
  else ret tt.

(** [[instance['Service']['Address'] for instance in nodes]]. *)
Fixpoint addresses (nodes : list instance) : M (list string) :=
  match nodes with
  | [] => ret []
  | None :: _ => raise KeyError
  | Some a :: rest => ips <- addresses rest ;; ret (a :: ips)
  end.

Definition FAILOVER_KEY : string := "FAILOVER_IN_PROGRESS".

(** The [while True] loop of [on_change], run for at most [fuel] polls. *)
Fixpoint wait_for_unlock (fuel : nat) : M unit :=
  match fuel with
  | O => fun s => (OutOfFuel, s)
  | S fuel' =>
      locked <- call (ConsulIsLocked FAILOVER_KEY) ;;
      if negb locked then ret tt
      else call (Sleep 3) ;; wait_for_unlock fuel'
  end.

(** The body of the [try] under the failover lock. *)
Definition execute_failover (node : Node) : M unit :=
  nodes <- call (ConsulHealthService REPLICA true) ;;
  ips <- addresses nodes ;;
  log INFO "[on_change] Executing failover with candidates: %s" ;;
  call (MysqlFailover ips).

(** Lines 189-211 of [on_change]: run the failover under the lock, or wait
    for the node that holds it. *)
Definition failover_phase (fuel : nat) (node : Node) : M unit :=
  session_id <- call (ConsulCreateSession FAILOVER_KEY 120) ;;
  locked <- call (ConsulLock FAILOVER_KEY (hostname node) session_id) ;;
  if locked then
    try_finally (execute_failover node)
      (call (ConsulUnlock FAILOVER_KEY session_id))
  else
    log INFO "[on_change] Failover in progress on another node, waiting to complete." ;;
    wait_for_unlock fuel.

(** Lines 213-226 of [on_change]. *)
Definition after_failover (node : Node) : M unit :=
  set_state UNASSIGNED ;;
  p <- is_primary node ;;
  if p then update_and_publish node
  else
    st <- get_state ;;
    if Role_eqb st UNASSIGNED then
      log ERROR "[on_change] this node is neither primary or replica after failover; check replication status on cluster." ;;
      sys_exit 1
    else ret tt.

Definition on_change (fuel : nat) (node : Node) : M unit :=
  p <- is_primary node ;;
  if p then
    log DEBUG "[on_change] this node is primary, no failover required." ;;
    update_and_publish node
  else
    healthy <- try_except
                 (call (ConsulGetPrimary (Some 1%Z)) ;;
                  log DEBUG "[on_change] primary is already healthy, no failover required" ;;
                  ret true)
                 catches_unknown_primary
                 (fun _ => ret false) ;;
    if healthy then ret tt
    else
      failover_phase fuel node ;;
      after_failover node.

End Handlers.

(** ** A scripted world

    A world that answers the calls it receives from a list of replies, the
    first call with the first reply and so on.  It fixes a run of a handler
    completely, whatever the collaborators do between two calls. *)

Inductive Reply : Type :=
| Fails (e : exn)
| Done
| Says (b : bool)
| Text (t : string)
| Value (v : pystr)
| Pair (a b : pystr)
| Rows (rs : list row)
| Instances (l : list instance)
| Connection (c : option conn)
| Handle (f : fd).

Definition bad_reply {A : Type} : Res A := Raise (OtherError "reply of the wrong type").

Definition as_unit (r : Reply) : Res unit :=
  match r with Fails e => Raise e | Done => Ret tt | _ => bad_reply end.
Definition as_bool (r : Reply) : Res bool :=
  match r with Fails e => Raise e | Says b => Ret b | _ => bad_reply end.
Definition as_string (r : Reply) : Res string :=
  match r with Fails e => Raise e | Text t => Ret t | _ => bad_reply end.
Definition as_pystr (r : Reply) : Res pystr :=
  match r with Fails e => Raise e | Value v => Ret v | _ => bad_reply end.
Definition as_pair (r : Reply) : Res (pystr * pystr) :=
  match r with Fails e => Raise e | Pair a b => Ret (a, b) | _ => bad_reply end.
Definition as_rows (r : Reply) : Res (list row) :=
  match r with Fails e => Raise e | Rows rs => Ret rs | _ => bad_reply end.
Definition as_instances (r : Reply) : Res (list instance) :=
  match r with Fails e => Raise e | Instances l => Ret l | _ => bad_reply end.
Definition as_conn (r : Reply) : Res (option conn) :=
  match r with Fails e => Raise e | Connection c => Ret c | _ => bad_reply end.
Definition as_fd (r : Reply) : Res fd :=
  match r with Fails e => Raise e | Handle f => Ret f | _ => bad_reply end.

Definition reply_to {R : Type} (op : Op R) : Reply -> Res R :=
  match op in Op R return Reply -> Res R with
  | MysqlGetPrimary | ConsulGetPrimary _ => as_pair
  | MysqlQuery _ => as_rows
  | MysqlWaitForConnection => as_conn
  | ConsulGet _ => as_pystr
  | ConsulCreateSession _ _ | UtcNowStrftime _ => as_string
  | ConsulLock _ _ _ | ConsulIsLocked _ | ConsulIsCheckHealthy _
  | ConsulPassCheck _ | ConsulMarkAsPrimary _ | CpUpdate => as_bool
  | ConsulHealthService _ _ => as_instances
  | FileOpen _ _ => as_fd
  | MysqlExecute _ | MysqlFailover _ | MysqlSetTimezoneInfo
  | MysqlSetupRootUser _ | MysqlCreateDb _ | MysqlCreateDefaultUser _
  | MysqlCreateReplUser _ | MysqlExpireRootPassword _
  | MysqlSetupReplication _ | ConsulRenewSession | ConsulPut _ _
  | ConsulUnlock _ _ | ConsulRegisterCheck _ _ | MantaPutBackup _ _
  | CpReload | FileClose _ | Flock _ _ | Innobackupex _ _ _ | Sleep _ => as_unit
  end.

Definition scripted_answer (R : Type) (op : Op R) (script : list Reply)
    : Res R * list Reply :=
  match script with
  | [] => (Raise (OtherError "end of script"), [])
  | r :: rest => (reply_to op r, rest)
  end.

Definition Scripted : Collaborators := {|
  PRIMARY_KEY := "mysql-primary";
  BACKUP_TTL_KEY := "mysql-backup-run";
  LAST_BINLOG_KEY := "mysql-last-binlog";
  LAST_BACKUP_KEY := "mysql-last-backup";
  BACKUP_TTL := "86400s";
  BACKUP_NAME := "mysql-backup-%Y-%m-%dT%H-%M-%SZ";
  World := list Reply;
  answer := scripted_answer
|}.

(** A node against a scripted world, before any call. *)
Definition scripted (role : Role) (lock : bool) (script : list Reply)
    : @St Scripted :=
  @mkSt Scripted role lock script [] [].

Definition node1 : Node := mkNode "node-1" "node-1" "10.0.0.1" "repl" "secret".

(** ** Role resolution as the specification words it *)

(** What the database step learns: the replication source, or nothing when
    the query fails with one of the errors the step swallows. *)
Definition database_source (r : Res (pystr * pystr)) : option pystr :=
  match r with
  | Ret (_, primary_ip) => Some primary_ip
  | Raise e => if catches_mysqld_status e then Some None else None
  | OutOfFuel => None
  end.

(** What the coordination-store step learns: the recorded primary, or
    nothing when the store raises [UnknownPrimary]. *)
Definition store_primary (r : Res (pystr * pystr)) : option pystr :=
  match r with
  | Ret (primary_node, _) => Some primary_node
  | Raise e => if catches_unknown_primary e then Some None else None
  | OutOfFuel => None
  end.

(** Step 2 of the resolution. *)
Definition role_from_database (node : Node) (source : pystr) : option Role :=
  if negb (truthy source) then None
  else if pystr_eqb source (ip node) then Some PRIMARY else Some REPLICA.

(** Step 3 of the resolution. *)
Definition role_from_store (node : Node) (primary : pystr) : option Role :=
  if negb (truthy primary) then None
  else if pystr_eqb primary (name node) then Some PRIMARY else Some REPLICA.

(** Steps 2 to 4, first match wins. *)
Definition resolve_by_precedence (node : Node) (source primary : pystr) : Role :=
  match role_from_database node source with
  | Some r => r
  | None =>
      match role_from_store node primary with
      | Some r => r
      | None => UNASSIGNED
      end
  end.

Section RoleResolution.

Context {C : Collaborators}.

(** [k] calls of [is_primary] in a row, with their answers. *)
Fixpoint is_primary_times (k : nat) (node : Node) : M (list bool) :=
  match k with
  | O => ret []
  | S k' =>
      b <- is_primary node ;;
      bs <- is_primary_times k' node ;;
      ret (b :: bs)
  end.

End RoleResolution.

(** ** Vocabulary of the statements *)

Section Vocabulary.

Context {C : Collaborators}.

(** The state after a call [op] that moved the world to [w]. *)
Definition after_call {R : Type} (s : St) (op : Op R) (w : World) : St :=
  mkSt (cp_state s) (init_lock s) w (trace s ++ [Called op]) (logs s).

(** The state after a log line. *)
Definition after_log (s : St) (l : Level) (msg : string) : St :=
  mkSt (cp_state s) (init_lock s) (world s) (trace s) (logs s ++ [(l, msg)]).

Definition with_state (s : St) (r : Role) : St :=
  mkSt r (init_lock s) (world s) (trace s) (logs s).

Definition with_init_lock (s : St) (b : bool) : St :=
  mkSt (cp_state s) b (world s) (trace s) (logs s).

(** A computation that leaves [/var/run/init.lock] as it found it. *)
Definition keeps_init_lock {A : Type} (m : M A) : Prop :=
  forall s, init_lock (snd (m s)) = init_lock s.

(** [clears k s s']: polled from [s], the failover lock is reported free at
    the [k]-th poll, after [k - 1] sleeps, and the state is then [s']. *)
Inductive clears : nat -> St -> St -> Prop :=
| clears_now (s : St) (w : World) :
    answer _ (ConsulIsLocked FAILOVER_KEY) (world s) = (Ret false, w) ->
    clears 1 s (after_call s (ConsulIsLocked FAILOVER_KEY) w)
| clears_later (k : nat) (s s' : St) (w1 w2 : World) :
    answer _ (ConsulIsLocked FAILOVER_KEY) (world s) = (Ret true, w1) ->
    answer _ (Sleep 3) w1 = (Ret tt, w2) ->
    clears k (after_call (after_call s (ConsulIsLocked FAILOVER_KEY) w1)
                (Sleep 3) w2) s' ->
    clears (S k) s s'.


End Vocabulary.


(** An exception that is an error, not a requested exit. *)
Definition is_error (e : exn) : bool :=
  match e with
  | SystemExit _ => false
  | _ => true
  end.

(** Modelled from the spec: [Consul.mark_as_primary] of [manager/libconsul.py],
    the atomic "claim primary if absent" on the record of the primary.  It
    takes the claimant and the recorded primary and gives whether the claim
    succeeded and the record afterwards. *)
Definition mark_as_primary (claimant : string) (recorded : pystr)
    : bool * pystr :=
  match recorded with
  | None => (true, Some claimant)
  | Some p => (false, Some p)
  end.

(** Two claims on the same record, one after the other. *)
Definition claim_twice (first second : string) (recorded : pystr)
    : bool * bool :=
  let (won1, recorded1) := mark_as_primary first recorded in
  let (won2, _) := mark_as_primary second recorded1 in
  (won1, won2).

(** ** Scenarios *)

(** No source in the database, no primary in the store, and the claim is
    lost to another node. *)
Definition lost_claim_script : list Reply :=
  [Pair None None; Fails UnknownPrimary; Says false].




(** A change event with no primary anywhere: this node takes the failover
    lock and [mysql.failover] fails. *)
Definition failed_failover_script : list Reply :=
  [Fails MySQLError; Fails UnknownPrimary; Fails UnknownPrimary;
   Text "session-1"; Says true; Instances [Some "10.0.0.2"];
   Fails CalledProcessError; Done].

(** A change event on which another node holds the failover lock, which is
    free at the second poll; the role stays undetermined afterwards. *)
Definition waited_failover_script : list Reply :=
  [Fails MySQLError; Fails UnknownPrimary; Fails UnknownPrimary;
   Text "session-2"; Says false; Says true; Done; Says false;
   Fails MySQLError; Fails UnknownPrimary].



(** ** pre_start

    The [preStart] handler talks to its collaborators through calls the
    other handlers do not make; it has its own interface and trace. *)

Module PreStart.

(** [os.path.join(a, b)] for a relative [b]. *)
Definition path_join (a b : string) : string :=
  match a with
  | EmptyString => b
  | _ =>
      if String.eqb (substring (String.length a - 1) 1 a) "/"
      then a ++ b
      else a ++ "/" ++ b
  end.

Inductive PreOp : Type -> Type :=
| TakeOwnership : PreOp unit
| Render : PreOp unit
| IsDir (path : string) : PreOp bool
| HasSnapshot : PreOp pystr
| GetBackup (last_backup : pystr) : PreOp unit
| RestoreFromSnapshot (last_backup : pystr) : PreOp unit
| InitializeDb : PreOp bool.

Inductive PreEvent : Type :=
| PreCalled {R : Type} (op : PreOp R).

Class PreCollaborators : Type := {
  datadir : string;
  PreWorld : Type;
  pre_answer : forall R : Type, PreOp R -> PreWorld -> Res R * PreWorld
}.

Section Handler.

Context {P : PreCollaborators}.

Record PreSt : Type := mkPreSt {
  pre_world : PreWorld;
  pre_trace : list PreEvent;
  pre_logs : list (Level * string)
}.

Definition PM (A : Type) : Type := PreSt -> Res A * PreSt.

Definition pret {A : Type} (a : A) : PM A := fun s => (Ret a, s).

Definition pbind {A B : Type} (m : PM A) (k : A -> PM B) : PM B :=
  fun s =>
    match m s with
    | (Ret a, s') => k a s'
    | (Raise e, s') => (Raise e, s')
    | (OutOfFuel, s') => (OutOfFuel, s')
    end.

Definition pcall {R : Type} (op : PreOp R) : PM R :=
  fun s =>
    let (r, w) := pre_answer R op (pre_world s) in
    (r, mkPreSt w (pre_trace s ++ [PreCalled op]) (pre_logs s)).

Definition plog (l : Level) (msg : string) : PM unit :=
  fun s => (Ret tt, mkPreSt (pre_world s) (pre_trace s)
                      (pre_logs s ++ [(l, msg)])).

Definition pre_start : PM unit :=
  pbind (pcall TakeOwnership) (fun _ =>
  pbind (pcall Render) (fun _ =>
  pbind (pcall (IsDir (path_join datadir "mysql"))) (fun present =>
  if negb present then
    pbind (pcall HasSnapshot) (fun last_backup =>
    if truthy last_backup then
      pbind (pcall (GetBackup last_backup)) (fun _ =>
      pcall (RestoreFromSnapshot last_backup))
    else
      pbind (pcall InitializeDb) (fun initialized =>
      if negb initialized then plog INFO "Skipping database setup."
      else pret tt))
  else pret tt))).

End Handler.

Definition is_initialize_db (e : PreEvent) : bool :=
  match e with
  | PreCalled InitializeDb => true
  | PreCalled _ => false
  end.

Definition is_restore (e : PreEvent) : bool :=
  match e with
  | PreCalled (RestoreFromSnapshot _) => true
  | PreCalled _ => false
  end.

(** A scripted world for [pre_start], answering from a list of replies. *)
Definition pre_reply_to {R : Type} (op : PreOp R) : Reply -> Res R :=
  match op in PreOp R return Reply -> Res R with
  | TakeOwnership | Render | GetBackup _ | RestoreFromSnapshot _ => as_unit
  | IsDir _ | InitializeDb => as_bool
  | HasSnapshot => as_pystr
  end.

Definition PreScripted : PreCollaborators := {|
  datadir := "/var/lib/mysql";
  PreWorld := list Reply;
  pre_answer := fun R op script =>
    match script with
    | [] => (Raise (OtherError "end of script"), [])
    | r :: rest => (pre_reply_to op r, rest)
    end
|}.

Definition pre_scripted (script : list Reply) : @PreSt PreScripted :=
  @mkPreSt PreScripted script [] [].

End PreStart.

(** A backup in which every step succeeds, as [create_snapshot] sees it
    once the lock file is open. *)
Definition full_backup_script : list Reply :=
  [Done; Text "mysql-backup-2016"; Handle 5; Done; Done; Done; Done;
   Rows [[("File", "bin.3")]]; Done].

(** A backup on a database that reports no binlog. *)
Definition no_binlog_backup_script : list Reply :=
  [Handle 4; Done; Text "mysql-backup-2016"; Handle 5; Done; Done; Done;
   Done; Rows []; Done; Done].

(** A tick with a new binlog on which the backup is taken. *)
Definition backup_tick_script : list Reply :=
  [Handle 3; Done; Done; Done; Rows [[("File", "bin.2")]];
   Value (Some "bin.1"); Says true; Handle 4; Done;
   Text "mysql-backup-2016"; Handle 5; Done; Done; Done; Done;
   Rows [[("File", "bin.2")]]; Done; Done; Done].

(** A backup for which the TTL check cannot be registered. *)
Definition unregistered_ttl_script : list Reply :=
  [Says false; Done; Says false; Handle 4; Fails IOError; Done; Done].

(** A first run on a node whose database already replicates from node-2. *)
Definition replica_bootstrap_script : list Reply :=
  [Pair None (Some "10.0.0.2"); Pair (Some "node-2") (Some "10.0.0.2"); Done].

(** A first run of the first node, whose first backup fails in
    [innobackupex]. *)
Definition failed_first_backup_script : list Reply :=
  [Pair None None; Fails UnknownPrimary; Says true; Connection None; Done;
   Says true; Handle 4; Done; Text "mysql-backup-2016"; Handle 5;
   Fails CalledProcessError; Done; Done; Done].

(** ** Vocabulary of the further properties *)

Section CallVocabulary.

Context {C : Collaborators}.

(** A computation all of whose calls satisfy [P]. *)
Definition calls_only {A : Type} (P : Event -> bool) (m : M A) : Prop :=
  forall s, exists l,
    trace (snd (m s)) = (trace s ++ l)%list /\ forallb P l = true.

(** A computation that leaves [cp.state] as it found it. *)
Definition keeps_cp_state {A : Type} (m : M A) : Prop :=
  forall s, cp_state (snd (m s)) = cp_state s.

End CallVocabulary.

Definition is_failover_call (e : Event) : bool :=
  match e with
  | Called (MysqlFailover _) => true
  | Called _ => false
  end.

(** The calls that take or upload a backup. *)
Definition is_backup_call (e : Event) : bool :=
  match e with
  | Called (Innobackupex _ _ _) | Called (MantaPutBackup _ _) => true
  | Called _ => false
  end.

(** The calls that change something in the coordination store. *)
Definition is_store_write (e : Event) : bool :=
  match e with
  | Called (ConsulPut _ _) | Called (ConsulMarkAsPrimary _)
  | Called (ConsulCreateSession _ _) | Called (ConsulLock _ _ _)
  | Called (ConsulUnlock _ _) | Called (ConsulRenewSession)
  | Called (ConsulPassCheck _) | Called (ConsulRegisterCheck _ _) => true
  | Called _ => false
  end.

(** The calls that change the database. *)
Definition is_database_write (e : Event) : bool :=
  match e with
  | Called (MysqlExecute _) | Called (MysqlFailover _)
  | Called MysqlSetTimezoneInfo | Called (MysqlSetupRootUser _)
  | Called (MysqlCreateDb _) | Called (MysqlCreateDefaultUser _)
  | Called (MysqlCreateReplUser _) | Called (MysqlExpireRootPassword _)
  | Called (MysqlSetupReplication _) => true
  | Called _ => false
  end.

(** The polls and sleeps of [k] rounds of the wait loop. *)
Fixpoint poll_rounds (k : nat) : list Event :=
  match k with
  | O => []
  | S k' => Called (ConsulIsLocked FAILOVER_KEY) :: Called (Sleep 3)
            :: poll_rounds k'
  end.

(** A world in which the failover lock is never released: every poll finds
    it held and every sleep returns. *)
Definition always_locked_answer (R : Type) (op : Op R) (w : unit)
    : Res R * unit :=
  match op in Op R return Res R * unit with
  | ConsulIsLocked _ => (Ret true, w)
  | Sleep _ => (Ret tt, w)
  | _ => (Raise (OtherError "not part of this world"), w)
  end.

Definition AlwaysLocked : Collaborators := {|
  PRIMARY_KEY := "mysql-primary";
  BACKUP_TTL_KEY := "mysql-backup-run";
  LAST_BINLOG_KEY := "mysql-last-binlog";
  LAST_BACKUP_KEY := "mysql-last-backup";
  BACKUP_TTL := "86400s";
  BACKUP_NAME := "mysql-backup-%Y-%m-%dT%H-%M-%SZ";
  World := unit;
  answer := always_locked_answer
|}.

(** * Properties *)

Section ResolutionFacts.

Context {C : Collaborators}.

Lemma is_primary_cached_once (node : Node) (s : St) :
  cp_state s <> UNASSIGNED ->
  is_primary node s = (Ret (Role_eqb (cp_state s) PRIMARY), s).
Proof.
  intros Hc. unfold is_primary, bind, get_state, ret.
  destruct (cp_state s); simpl; try reflexivity.
  now elim Hc.
Qed.

(** C1. With the cached role UNASSIGNED, [is_primary] decides by the
    database's replication source first (no source: fall through; own IP:
    PRIMARY; another address: REPLICA; a MySQLError, WaitTimeoutError or
    UnknownPrimary is swallowed), then by the primary recorded in the
    coordination store (absent or UnknownPrimary: fall through; own name:
    PRIMARY; otherwise REPLICA), else UNASSIGNED.  The role is cached in
    [cp.state], the answer is whether it is PRIMARY, and the store is not
    consulted when the database decides, so nothing is asked of its answer
    then. *)
Theorem is_primary_precedence (node : Node) (s : St)
    (rdb rst : Res (pystr * pystr)) (w1 w2 : World) (source primary : pystr) :
  cp_state s = UNASSIGNED ->
  answer _ MysqlGetPrimary (world s) = (rdb, w1) ->
  database_source rdb = Some source ->
  answer _ (ConsulGetPrimary None) w1 = (rst, w2) ->
  (role_from_database node source = None -> store_primary rst = Some primary) ->
  let role := resolve_by_precedence node source primary in
  let s' := snd (is_primary node s) in
  fst (is_primary node s) = Ret (Role_eqb role PRIMARY) /\
  cp_state s' = role /\
  match role_from_database node source with
  | Some _ =>
      trace s' = (trace s ++ [Called MysqlGetPrimary])%list /\ world s' = w1
  | None =>
      trace s' = (trace s ++ [Called MysqlGetPrimary;
                              Called (ConsulGetPrimary None)])%list
      /\ world s' = w2
  end.
Proof.
  intros Hc Hdb Hsrc Hst Hprim.
  assert (Hstore : truthy source = false -> store_primary rst = Some primary).
  { intros Ht. apply Hprim. unfold role_from_database. rewrite Ht.
    reflexivity. }
  clear Hprim.
  unfold resolve_by_precedence, role_from_database, role_from_store.
  unfold is_primary, is_primary_via_mysqld, is_primary_via_consul,
    try_except, bind, get_state, call, set_state, log, ret.
  rewrite Hc; simpl. rewrite Hdb.
  destruct rdb as [[x src]|e|]; simpl in Hsrc; try discriminate.
  - injection Hsrc as <-. simpl.
    destruct (truthy src) eqn:Ht; simpl.
    + destruct (pystr_eqb src (ip node)); simpl; auto.
    + specialize (Hstore eq_refl). rewrite Hst.
      destruct rst as [[prim y]|e|]; simpl in Hstore; try discriminate.
      * injection Hstore as <-. simpl.
        destruct (truthy prim); simpl.
        -- destruct (pystr_eqb prim (name node)); simpl;
             rewrite <- app_assoc; auto.
        -- rewrite <- app_assoc; auto.
      * destruct (catches_unknown_primary e); try discriminate.
        injection Hstore as <-. simpl. rewrite <- app_assoc; auto.
  - destruct (catches_mysqld_status e); try discriminate.
    injection Hsrc as <-. simpl. specialize (Hstore eq_refl). rewrite Hst.
    destruct rst as [[prim y]|e'|]; simpl in Hstore; try discriminate.
    + injection Hstore as <-. simpl.
      destruct (truthy prim); simpl.
      * destruct (pystr_eqb prim (name node)); simpl;
          rewrite <- app_assoc; auto.
      * rewrite <- app_assoc; auto.
    + destruct (catches_unknown_primary e'); try discriminate.
      injection Hstore as <-. simpl. rewrite <- app_assoc; auto.
Qed.

(** With UNASSIGNED cached, the first thing [is_primary] does is to ask the
    database. *)
Lemma is_primary_asks_database (node : Node) (s : St) :
  cp_state s = UNASSIGNED ->
  exists rest,
    trace (snd (is_primary node s))
      = (trace s ++ Called MysqlGetPrimary :: rest)%list.
Proof.
  intros Hc.
  unfold is_primary, is_primary_via_mysqld, is_primary_via_consul,
    try_except, bind, get_state, call, set_state, log, ret.
  rewrite Hc. simpl.
  destruct (answer _ MysqlGetPrimary (world s)) as [[[x src]|e|] w1]; simpl.
  - destruct (truthy src); simpl.
    + destruct (pystr_eqb src (ip node)); simpl; now exists [].
    + destruct (answer _ (ConsulGetPrimary None) w1) as [[[prim y]|e|] w2]; simpl.
      * destruct (truthy prim); simpl;
          [destruct (pystr_eqb prim (name node)); simpl|];
          rewrite <- app_assoc; simpl; eauto.
      * destruct (catches_unknown_primary e); simpl;
          rewrite <- app_assoc; simpl; eauto.
      * rewrite <- app_assoc; simpl; eauto.
  - destruct (catches_mysqld_status e); simpl.
    + destruct (answer _ (ConsulGetPrimary None) w1) as [[[prim y]|e'|] w2]; simpl.
      * destruct (truthy prim); simpl;
          [destruct (pystr_eqb prim (name node)); simpl|];
          rewrite <- app_assoc; simpl; eauto.
      * destruct (catches_unknown_primary e'); simpl;
          rewrite <- app_assoc; simpl; eauto.
      * rewrite <- app_assoc; simpl; eauto.
    + now exists [].
  - now exists [].
Qed.

(** C2. Once PRIMARY or REPLICA is cached, any number of [is_primary] calls
    in a row give the same answer and leave the node, the world, the trace
    and the log as they were: no call reaches the database or the store.
    After [cp.state] is reset to UNASSIGNED the next call asks the database
    again. *)
Theorem is_primary_memoized (node : Node) (s : St) (k : nat) :
  cp_state s <> UNASSIGNED ->
  is_primary_times k node s
    = (Ret (repeat (Role_eqb (cp_state s) PRIMARY) k), s) /\
  exists rest,
    trace (snd (bind (set_state UNASSIGNED) (fun _ => is_primary node) s))
      = (trace s ++ Called MysqlGetPrimary :: rest)%list.
Proof.
  intros Hc. split.
  - induction k as [|k IH]; simpl.
    + reflexivity.
    + unfold bind at 1. rewrite (is_primary_cached_once node s Hc).
      unfold bind at 1. rewrite IH. reflexivity.
  - unfold bind, set_state.
    apply (is_primary_asks_database node (with_state s UNASSIGNED)).
    reflexivity.
Qed.

End ResolutionFacts.

(** The database is unreachable and the store names node-2: node-1 is a
    replica. *)
Lemma is_primary_precedence_witness :
  let s := scripted UNASSIGNED true
             [Fails MySQLError; Pair (Some "node-2") (Some "10.0.0.2")] in
  fst (is_primary node1 s) = Ret false /\
  cp_state (snd (is_primary node1 s)) = REPLICA.
Proof.
  intros s.
  pose proof (is_primary_precedence (C := Scripted) node1 s
                (Raise MySQLError) (Ret (Some "node-2", Some "10.0.0.2"))
                [Pair (Some "node-2") (Some "10.0.0.2")] [] None (Some "node-2")
                eq_refl eq_refl eq_refl eq_refl (fun _ => eq_refl)) as H.
  destruct H as [H1 [H2 _]]. split; [exact H1 | exact H2].
Defined.

Lemma is_primary_memoized_witness :
  is_primary_times 3 node1 (scripted REPLICA true [])
    = (Ret [false; false; false], scripted REPLICA true []).
Proof.
  assert (Hc : cp_state (scripted REPLICA true []) <> UNASSIGNED)
    by (simpl; discriminate).
  exact (proj1 (is_primary_memoized (C := Scripted) node1
                  (scripted REPLICA true []) 3 Hc)).
Defined.

(** ** The initialization gate *)

Create HintDb init_lock.

Section InitLockFacts.

Context {C : Collaborators}.

Lemma keeps_ret {A : Type} (a : A) : keeps_init_lock (ret a).
Proof. intros s; reflexivity. Qed.

Lemma keeps_raise {A : Type} (e : exn) : keeps_init_lock (@raise _ A e).
Proof. intros s; reflexivity. Qed.

Lemma keeps_sys_exit {A : Type} (n : Z) : keeps_init_lock (@sys_exit _ A n).
Proof. intros s; reflexivity. Qed.

Lemma keeps_get_state : keeps_init_lock get_state.
Proof. intros s; reflexivity. Qed.

Lemma keeps_set_state (r : Role) : keeps_init_lock (set_state r).
Proof. intros s; reflexivity. Qed.

Lemma keeps_log (l : Level) (msg : string) : keeps_init_lock (log l msg).
Proof. intros s; reflexivity. Qed.

Lemma keeps_call {R : Type} (op : Op R) : keeps_init_lock (call op).
Proof.
  intros s. unfold call. destruct (answer R op (world s)); reflexivity.
Qed.

Lemma keeps_bind {A B : Type} (m : M A) (k : A -> M B) :
  keeps_init_lock m -> (forall a, keeps_init_lock (k a)) ->
  keeps_init_lock (bind m k).
Proof.
  intros Hm Hk s. unfold bind. specialize (Hm s).
  destruct (m s) as [[a|e|] s']; simpl in *; auto.
  rewrite Hk. exact Hm.
Qed.

Lemma keeps_try_except {A : Type} (m : M A) (catches : exn -> bool)
    (h : exn -> M A) :
  keeps_init_lock m -> (forall e, keeps_init_lock (h e)) ->
  keeps_init_lock (try_except m catches h).
Proof.
  intros Hm Hh s. unfold try_except. specialize (Hm s).
  destruct (m s) as [[a|e|] s']; simpl in *; auto.
  destruct (catches e); simpl; auto. rewrite Hh. exact Hm.
Qed.

Lemma keeps_try_finally {A : Type} (m : M A) (f : M unit) :
  keeps_init_lock m -> keeps_init_lock f ->
  keeps_init_lock (try_finally m f).
Proof.
  intros Hm Hf s. unfold try_finally. specialize (Hm s).
  destruct (m s) as [[a|e|] s']; simpl in *; auto;
    specialize (Hf s'); destruct (f s') as [[u|e'|] s'']; simpl in *; congruence.
Qed.

End InitLockFacts.

#[export] Hint Resolve keeps_ret keeps_raise keeps_sys_exit keeps_get_state
  keeps_set_state keeps_log keeps_call : init_lock.

(** Decompose a handler into the steps above. *)
Ltac keeps_step :=
  first
    [ apply keeps_bind; [ | intros ? ]
    | apply keeps_try_except; [ | intros ? ]
    | apply keeps_try_finally
    | match goal with
      | |- keeps_init_lock (if ?b then _ else _) => destruct b
      | |- keeps_init_lock (match ?x with _ => _ end) => destruct x
      end
    | solve [ auto with init_lock ] ].

Ltac keeps := repeat keeps_step.

Section InitLockHandlers.

Context {C : Collaborators}.

Lemma keeps_is_primary (node : Node) : keeps_init_lock (is_primary node).
Proof.
  unfold is_primary, is_primary_via_mysqld, is_primary_via_consul. keeps.
Qed.

Lemma keeps_write_snapshot (node : Node) :
  keeps_init_lock (write_snapshot node).
Proof.
  unfold write_snapshot, set_backup_ttl, create_snapshot, open_backup_lock,
    create_snapshot_body, create_snapshot_cleanup, first_row_File.
  keeps.
Qed.

Lemma keeps_run_as_primary (node : Node) :
  keeps_init_lock (run_as_primary node).
Proof.
  unfold run_as_primary, write_snapshot, set_backup_ttl, create_snapshot,
    open_backup_lock, create_snapshot_body, create_snapshot_cleanup,
    first_row_File.
  keeps.
Qed.

Lemma keeps_run_as_replica (node : Node) :
  keeps_init_lock (run_as_replica node).
Proof. unfold run_as_replica. keeps. Qed.

End InitLockHandlers.

Section InitializationFacts.

Context {C : Collaborators}.

Lemma bind_never_true {A : Type} (m : M A) (k : A -> M bool) (s : St) :
  (forall a s', fst (k a s') <> Ret true) -> fst (bind m k s) <> Ret true.
Proof.
  intros Hk. unfold bind. destruct (m s) as [[a|e|] s']; simpl;
    [apply Hk | discriminate | discriminate].
Qed.

Lemma initialize_never_true (node : Node) (s : St) :
  fst (initialize_for_state node s) <> Ret true.
Proof.
  unfold initialize_for_state.
  apply bind_never_true; intros p s1.
  apply bind_never_true; intros st s2.
  destruct (p || Role_eqb st UNASSIGNED).
  - apply bind_never_true; intros _ s3.
    apply bind_never_true; intros changed s4.
    destruct changed.
    + apply bind_never_true; intros _ s5. discriminate.
    + discriminate.
  - apply bind_never_true; intros _ s3. discriminate.
Qed.

Lemma gate_closed (node : Node) (s : St) :
  init_lock s = true -> assert_initialized_for_state node s = (Ret true, s).
Proof.
  intros Hl. unfold assert_initialized_for_state, try_except, bind,
    mkdir_init_lock, ret. rewrite Hl. reflexivity.
Qed.

Lemma gate_open (node : Node) (s : St) :
  init_lock s = false ->
  assert_initialized_for_state node s
    = initialize_for_state node (with_init_lock s true).
Proof.
  intros Hl. unfold assert_initialized_for_state, try_except, bind,
    mkdir_init_lock, ret. rewrite Hl. reflexivity.
Qed.

(** C9. When [/var/run/init.lock] exists, [assert_initialized_for_state]
    returns True at once and leaves the node, the world, the trace and the
    log untouched.  When it does not exist, the call creates it and runs the
    bootstrap, and then never returns True. *)
Theorem assert_initialized_gate (node : Node) (s : St) :
  (init_lock s = true ->
   assert_initialized_for_state node s = (Ret true, s)) /\
  (init_lock s = false ->
   assert_initialized_for_state node s
     = initialize_for_state node (with_init_lock s true) /\
   fst (assert_initialized_for_state node s) <> Ret true).
Proof.
  split.
  - apply gate_closed.
  - intros Hl. rewrite (gate_open node s Hl). split.
    + reflexivity.
    + apply initialize_never_true.
Qed.


End InitializationFacts.

Section ClaimRace.

Context {C : Collaborators}.

(** The calls one [is_primary] makes. *)
Lemma is_primary_calls (node : Node) (s : St) :
  exists l,
    trace (snd (is_primary node s)) = (trace s ++ l)%list /\
    (l = [] \/ l = [Called MysqlGetPrimary] \/
     l = [Called MysqlGetPrimary; Called (ConsulGetPrimary None)]).
Proof.
  unfold is_primary, is_primary_via_mysqld, is_primary_via_consul,
    try_except, bind, get_state, call, set_state, log, ret.
  destruct (cp_state s); simpl;
    try (exists []; rewrite app_nil_r; now auto).
  destruct (answer _ MysqlGetPrimary (world s)) as [[[x src]|e|] w1]; simpl.
  - destruct (truthy src); simpl.
    + destruct (pystr_eqb src (ip node)); simpl; eauto.
    + destruct (answer _ (ConsulGetPrimary None) w1) as [[[prim y]|e|] w2]; simpl.
      * destruct (truthy prim); simpl;
          [destruct (pystr_eqb prim (name node)); simpl|];
          rewrite <- app_assoc; simpl; eauto.
      * destruct (catches_unknown_primary e); simpl;
          rewrite <- app_assoc; simpl; eauto.
      * rewrite <- app_assoc; simpl; eauto.
  - destruct (catches_mysqld_status e); simpl.
    + destruct (answer _ (ConsulGetPrimary None) w1) as [[[prim y]|e'|] w2]; simpl.
      * destruct (truthy prim); simpl;
          [destruct (pystr_eqb prim (name node)); simpl|];
          rewrite <- app_assoc; simpl; eauto.
      * destruct (catches_unknown_primary e'); simpl;
          rewrite <- app_assoc; simpl; eauto.
      * rewrite <- app_assoc; simpl; eauto.
    + eauto.
  - eauto.
Qed.

(** C5 (amended). Of two claims on an unclaimed primary record exactly one
    succeeds, the first.  A node whose claim is lost does not go on to the
    replica bootstrap in that invocation: it removes the lock directory and
    ends in [sys.exit(1)], having called nothing but the role resolution
    and the claim.  It takes the replica path in a later invocation, when
    the role resolves to REPLICA. *)
Theorem lost_claim_exits_for_retry (node : Node) :
  (forall a b : string, claim_twice a b None = (true, false)) /\
  (forall (s s1 : St) (p : bool) (w : World),
     init_lock s = false ->
     is_primary node (with_init_lock s true) = (Ret p, s1) ->
     p || Role_eqb (cp_state s1) UNASSIGNED = true ->
     answer _ (ConsulMarkAsPrimary (name node)) (world s1) = (Ret false, w) ->
     let r := assert_initialized_for_state node s in
     fst r = Raise (SystemExit 1) /\
     init_lock (snd r) = false /\
     exists l,
       trace (snd r) = (trace s ++ l)%list /\
       existsb is_setup_replication l = false) /\
  (forall s s1 s2 : St,
     init_lock s = false ->
     is_primary node (with_init_lock s true) = (Ret false, s1) ->
     cp_state s1 = REPLICA ->
     run_as_replica node s1 = (Ret tt, s2) ->
     assert_initialized_for_state node s = (Ret false, s2)).
Proof.
  split; [reflexivity|]. split.
  - intros s s1 p w Hl Hp Hc Hm r.
    assert (Hl1 : init_lock s1 = true).
    { pose proof (keeps_is_primary node (with_init_lock s true)) as K.
      rewrite Hp in K. exact K. }
    assert (Hrun : run_as_primary node s1
                   = (Ret false,
                      after_call s1 (ConsulMarkAsPrimary (name node)) w)).
    { unfold run_as_primary, bind, call. rewrite Hm. reflexivity. }
    destruct (is_primary_calls node (with_init_lock s true)) as [l [Ht Hcases]].
    rewrite Hp in Ht. simpl in Ht.
    assert (Hr : exists msg,
               r = (Raise (SystemExit 1),
                    with_init_lock
                      (after_log
                         (after_call s1 (ConsulMarkAsPrimary (name node)) w)
                         ERROR msg) false)).
    { unfold r. rewrite (gate_open node s Hl).
      unfold initialize_for_state, bind, get_state. rewrite Hp.
      cbv beta iota. rewrite Hc. unfold try_except. rewrite Hrun. simpl.
      unfold log, rmdir_init_lock, sys_exit, raise. simpl. rewrite Hl1.
      eexists; reflexivity. }
    destruct Hr as [msg Hr]. rewrite Hr. simpl.
    split; [reflexivity|]. split; [reflexivity|].
    exists (l ++ [Called (ConsulMarkAsPrimary (name node))])%list.
    rewrite Ht, <- app_assoc. split; [reflexivity|].
    destruct Hcases as [->|[->| ->]]; reflexivity.
  - intros s s1 s2 Hl Hp Hc Hrun.
    rewrite (gate_open node s Hl).
    unfold initialize_for_state, bind, get_state. rewrite Hp.
    cbv beta iota. rewrite Hc. simpl. unfold try_except. rewrite Hrun.
    reflexivity.
Qed.

End ClaimRace.

Lemma assert_initialized_gate_witness :
  assert_initialized_for_state node1 (scripted REPLICA true [])
    = (Ret true, scripted REPLICA true []).
Proof.
  exact (proj1 (assert_initialized_gate (C := Scripted) node1
                  (scripted REPLICA true [])) eq_refl).
Defined.


Lemma lost_claim_exits_for_retry_witness :
  let r := assert_initialized_for_state node1
             (scripted UNASSIGNED false lost_claim_script) in
  fst r = Raise (SystemExit 1) /\ init_lock (snd r) = false.
Proof.
  intros r.
  pose proof (proj1 (proj2 (lost_claim_exits_for_retry (C := Scripted) node1))
                (scripted UNASSIGNED false lost_claim_script)
                (snd (is_primary node1
                        (scripted UNASSIGNED true lost_claim_script)))
                false [] eq_refl eq_refl eq_refl eq_refl) as H.
  destruct H as [H1 [H2 _]]. split; [exact H1 | exact H2].
Defined.

(** C5 as stated fails: the node that loses the claim ends its invocation in
    [sys.exit(1)] after three calls, none of them of the replica
    bootstrap. *)
Lemma lost_claim_skips_replica_bootstrap :
  let r := assert_initialized_for_state node1
             (scripted UNASSIGNED false lost_claim_script) in
  fst r = Raise (SystemExit 1) /\
  trace (snd r) = [Called MysqlGetPrimary; Called (ConsulGetPrimary None);
                   Called (ConsulMarkAsPrimary "node-1")] /\
  existsb is_setup_replication (trace (snd r)) = false /\
  cp_state (snd r) <> REPLICA.
Proof.
  cbv zeta. repeat split. simpl. discriminate.
Qed.

(** ** Backups *)

Section BackupFacts.

Context {C : Collaborators}.

(** The advisory lock is held elsewhere: the non-blocking [flock] raises
    IOError and [is_backup_running] answers True. *)
Lemma is_backup_running_contended (s : St) (f : fd) (w1 w2 w3 : World) :
  answer _ (FileOpen lockfile_name "r+") (world s) = (Ret f, w1) ->
  answer _ (Flock f (Z.lor LOCK_EX LOCK_NB)) w1 = (Raise IOError, w2) ->
  answer _ (FileClose f) w2 = (Ret tt, w3) ->
  fst (is_backup_running s) = Ret true.
Proof.
  intros Ho Hf Hc. simpl in Hf.
  unfold is_backup_running, open_backup_lock, try_finally, try_except, bind,
    call, ret. rewrite Ho. simpl. rewrite Hf. simpl. rewrite Hc. reflexivity.
Qed.

(** The advisory lock is free: it is taken, released, and
    [is_backup_running] answers False. *)
Lemma is_backup_running_free (s : St) (f : fd) (w1 w2 w3 w4 : World) :
  answer _ (FileOpen lockfile_name "r+") (world s) = (Ret f, w1) ->
  answer _ (Flock f (Z.lor LOCK_EX LOCK_NB)) w1 = (Ret tt, w2) ->
  answer _ (Flock f LOCK_UN) w2 = (Ret tt, w3) ->
  answer _ (FileClose f) w3 = (Ret tt, w4) ->
  fst (is_backup_running s) = Ret false.
Proof.
  intros Ho Hf Hu Hc. simpl in Hf.
  unfold is_backup_running, open_backup_lock, try_finally, try_except, bind,
    call, ret. rewrite Ho. simpl. rewrite Hf. simpl. rewrite Hu. simpl.
  rewrite Hc. reflexivity.
Qed.


(** A row without a File, or no row at all, counts as a stale binlog. *)
Lemma is_binlog_stale_without_file (node : Node) (s : St) (w3 : World) :
  answer _ (MysqlQuery "show master status") (world s) = (Ret [], w3) ->
  is_binlog_stale node s
    = (Ret true, after_call s (MysqlQuery "show master status") w3).
Proof.
  intros Hq. unfold is_binlog_stale, try_except, bind, call, first_row_File, ret.
  rewrite Hq. reflexivity.
Qed.


(** Lock contention inside [create_snapshot]: the body ends at its first
    statement with IOError. *)
Lemma create_snapshot_body_contended (node : Node) (f : fd) (s : St)
    (w : World) :
  answer _ (Flock f (Z.lor LOCK_EX LOCK_NB)) (world s) = (Raise IOError, w) ->
  create_snapshot_body node f s
    = (Raise IOError, after_call s (Flock f (Z.lor LOCK_EX LOCK_NB)) w).
Proof.
  intros Hf. unfold create_snapshot_body, bind, call. rewrite Hf.
  reflexivity.
Qed.


End BackupFacts.

(** ** The change handler *)

Section ChangeFacts.

Context {C : Collaborators}.

(** An answer True of [is_primary] comes with PRIMARY cached. *)
Lemma is_primary_true_cached (node : Node) (s s' : St) :
  is_primary node s = (Ret true, s') -> cp_state s' = PRIMARY.
Proof.
  unfold is_primary, is_primary_via_mysqld, is_primary_via_consul,
    try_except, bind, get_state, call, set_state, log, ret.
  destruct (cp_state s) eqn:Hc; simpl;
    try (intros H; inversion H; subst; simpl; now auto).
  destruct (answer _ MysqlGetPrimary (world s)) as [[[x src]|e|] w1]; simpl.
  - destruct (truthy src); simpl.
    + destruct (pystr_eqb src (ip node)); simpl; intros H;
        inversion H; subst; simpl; now auto.
    + destruct (answer _ (ConsulGetPrimary None) w1) as [[[prim y]|e|] w2]; simpl.
      * destruct (truthy prim); simpl;
          [destruct (pystr_eqb prim (name node)); simpl|];
          intros H; inversion H; subst; simpl; now auto.
      * destruct (catches_unknown_primary e); simpl; intros H;
          discriminate.
      * discriminate.
  - destruct (catches_mysqld_status e); simpl; [|discriminate].
    destruct (answer _ (ConsulGetPrimary None) w1) as [[[prim y]|e'|] w2]; simpl.
    + destruct (truthy prim); simpl;
        [destruct (pystr_eqb prim (name node)); simpl|];
        intros H; inversion H; subst; simpl; now auto.
    + destruct (catches_unknown_primary e'); simpl; intros H; discriminate.
    + discriminate.
  - discriminate.
Qed.

(** Once the lock is reported free at the [k]-th poll, [k] polls are
    enough for the loop to end. *)
Lemma wait_for_unlock_clears (k : nat) (s s' : St) :
  clears k s s' ->
  forall fuel, k <= fuel -> wait_for_unlock fuel s = (Ret tt, s').
Proof.
  induction 1 as [s w Hfree | k s s' w1 w2 Hheld Hsleep Hrest IH];
    intros fuel Hle; (destruct fuel as [|fuel]; [lia|]); simpl;
    unfold bind, call.
  - rewrite Hfree. reflexivity.
  - rewrite Hheld. simpl. rewrite Hsleep. apply IH. lia.
Qed.

(** C6. When [on_change] has acquired the failover lock, the call that
    releases it is made as soon as the failover attempt ends, whether it
    ended normally or with an exception raised while listing the candidates
    or in [mysql.failover].  An exception of the attempt is then the outcome
    of [on_change] (status 1 for an error); after a normal attempt the
    handler goes on from the state the release left. *)
Theorem failover_lock_always_released (node : Node) (fuel : nat)
    (s s0 s3 : St) (w0 w1 w2 w4 : World) (session_id : string)
    (r ru : Res unit) :
  is_primary node s = (Ret false, s0) ->
  answer _ (ConsulGetPrimary (Some 1%Z)) (world s0) = (Raise UnknownPrimary, w0) ->
  answer _ (ConsulCreateSession FAILOVER_KEY 120) w0 = (Ret session_id, w1) ->
  answer _ (ConsulLock FAILOVER_KEY (hostname node) session_id) w1
    = (Ret true, w2) ->
  execute_failover node
    (after_call
       (after_call (after_call s0 (ConsulGetPrimary (Some 1%Z)) w0)
          (ConsulCreateSession FAILOVER_KEY 120) w1)
       (ConsulLock FAILOVER_KEY (hostname node) session_id) w2) = (r, s3) ->
  r <> OutOfFuel ->
  answer _ (ConsulUnlock FAILOVER_KEY session_id) (world s3) = (ru, w4) ->
  let released := after_call s3 (ConsulUnlock FAILOVER_KEY session_id) w4 in
  on_change fuel node s
    = match ru, r with
      | Ret _, Ret _ => after_failover node released
      | Ret _, Raise e => (Raise e, released)
      | Raise e', _ => (Raise e', released)
      | _, _ => (OutOfFuel, released)
      end /\
  (forall e, r = Raise e -> ru = Ret tt -> is_error e = true ->
   exit_status (fst (on_change fuel node s)) = Some 1%Z).
Proof.
  intros Hp Hget Hsess Hlock Hbody Hfuel Hun released.
  assert (Hrun : on_change fuel node s
                 = match ru, r with
                   | Ret _, Ret _ => after_failover node released
                   | Ret _, Raise e => (Raise e, released)
                   | Raise e', _ => (Raise e', released)
                   | _, _ => (OutOfFuel, released)
                   end).
  { unfold on_change, bind. rewrite Hp. cbv beta iota.
    unfold try_except, bind, call. rewrite Hget. cbn [catches_unknown_primary].
    unfold ret at 1. cbv beta iota.
    unfold failover_phase, bind, call. cbn [world]. rewrite Hsess.
    cbn [world]. rewrite Hlock. cbv beta iota.
    unfold try_finally. unfold after_call in Hbody. rewrite Hbody.
    unfold released, after_call.
    destruct r as [[]|e|]; [| |now elim Hfuel]; rewrite Hun;
      destruct ru as [[]|e'|]; reflexivity. }
  split; [exact Hrun|].
  intros e -> -> He. rewrite Hrun. destruct e; simpl in *;
    try reflexivity; discriminate.
Qed.

(** C7. When the failover phase of [on_change] has ended normally, by this
    node's own failover or by waiting for the lock of another node to clear,
    [cp.state] is reset to UNASSIGNED and [is_primary] resolves the role
    anew, asking the database, before the final check; a node that resolves
    as primary publishes itself, a node still UNASSIGNED ends in
    [sys.exit(1)], a replica returns.  The wait for another node's lock ends
    normally as soon as the lock is reported free. *)
Theorem on_change_resolves_again (node : Node) :
  (forall (fuel : nat) (s s0 s2 s3 : St) (w0 : World) (rp : Res bool),
     is_primary node s = (Ret false, s0) ->
     answer _ (ConsulGetPrimary (Some 1%Z)) (world s0)
       = (Raise UnknownPrimary, w0) ->
     failover_phase fuel node (after_call s0 (ConsulGetPrimary (Some 1%Z)) w0)
       = (Ret tt, s2) ->
     is_primary node (with_state s2 UNASSIGNED) = (rp, s3) ->
     on_change fuel node s
       = match rp with
         | Ret true => update_and_publish node s3
         | Ret false =>
             if Role_eqb (cp_state s3) UNASSIGNED
             then (Raise (SystemExit 1),
                   after_log s3 ERROR
                     "[on_change] this node is neither primary or replica after failover; check replication status on cluster.")
             else (Ret tt, s3)
         | Raise e => (Raise e, s3)
         | OutOfFuel => (OutOfFuel, s3)
         end /\
     (exists rest,
        trace s3 = (trace s2 ++ Called MysqlGetPrimary :: rest)%list) /\
     (forall b, rp = Ret b -> cp_state s3 = UNASSIGNED ->
      fst (on_change fuel node s) = Raise (SystemExit 1) /\
      exit_status (fst (on_change fuel node s)) = Some 1%Z)) /\
  (forall (k fuel : nat) (s s' : St) (w1 w2 : World) (session_id : string),
     answer _ (ConsulCreateSession FAILOVER_KEY 120) (world s)
       = (Ret session_id, w1) ->
     answer _ (ConsulLock FAILOVER_KEY (hostname node) session_id) w1
       = (Ret false, w2) ->
     clears k
       (after_log
          (after_call (after_call s (ConsulCreateSession FAILOVER_KEY 120) w1)
             (ConsulLock FAILOVER_KEY (hostname node) session_id) w2)
          INFO
          "[on_change] Failover in progress on another node, waiting to complete.")
       s' ->
     k <= fuel ->
     failover_phase fuel node s = (Ret tt, s')).
Proof.
  split.
  - intros fuel s s0 s2 s3 w0 rp Hp Hget Hphase Hres.
    assert (Hrun : on_change fuel node s
                   = match rp with
                     | Ret true => update_and_publish node s3
                     | Ret false =>
                         if Role_eqb (cp_state s3) UNASSIGNED
                         then (Raise (SystemExit 1),
                               after_log s3 ERROR
                                 "[on_change] this node is neither primary or replica after failover; check replication status on cluster.")
                         else (Ret tt, s3)
                     | Raise e => (Raise e, s3)
                     | OutOfFuel => (OutOfFuel, s3)
                     end).
    { unfold on_change, bind. rewrite Hp. cbv beta iota.
      unfold try_except, bind, call. rewrite Hget.
      cbn [catches_unknown_primary]. unfold ret at 1. cbv beta iota.
      unfold after_call in Hphase. rewrite Hphase.
      unfold after_failover, bind, set_state. unfold with_state in Hres.
      rewrite Hres. destruct rp as [[|]|e|]; try reflexivity.
      unfold get_state, log, sys_exit, raise.
      destruct (Role_eqb (cp_state s3) UNASSIGNED); reflexivity. }
    split; [exact Hrun|]. split.
    + destruct (is_primary_asks_database node (with_state s2 UNASSIGNED))
        as [rest Hrest]; [reflexivity|].
      rewrite Hres in Hrest. exists rest. exact Hrest.
    + intros b -> Hc. rewrite Hrun. destruct b.
      * apply is_primary_true_cached in Hres. congruence.
      * rewrite Hc. simpl. auto.
  - intros k fuel s s' w1 w2 session_id Hsess Hlock Hclears Hle.
    unfold failover_phase, bind, call. rewrite Hsess. cbn [world].
    rewrite Hlock. cbv beta iota. unfold log.
    apply (wait_for_unlock_clears k _ s' Hclears fuel Hle).
Qed.


End ChangeFacts.




(** The failover fails under the lock: the lock is released and the error
    is the outcome of the handler. *)
Lemma failover_lock_always_released_witness :
  fst (on_change 0 node1 (scripted UNASSIGNED true failed_failover_script))
    = Raise CalledProcessError /\
  trace (snd (on_change 0 node1
                (scripted UNASSIGNED true failed_failover_script)))
    = [Called MysqlGetPrimary; Called (ConsulGetPrimary None);
       Called (ConsulGetPrimary (Some 1%Z));
       Called (ConsulCreateSession "FAILOVER_IN_PROGRESS" 120);
       Called (ConsulLock "FAILOVER_IN_PROGRESS" "node-1" "session-1");
       Called (ConsulHealthService REPLICA true);
       Called (MysqlFailover ["10.0.0.2"]);
       Called (ConsulUnlock "FAILOVER_IN_PROGRESS" "session-1")].
Proof.
  pose proof (failover_lock_always_released (C := Scripted) node1 0
                (scripted UNASSIGNED true failed_failover_script)
                (snd (is_primary node1
                        (scripted UNASSIGNED true failed_failover_script)))
                (@mkSt Scripted UNASSIGNED true [Done]
                   [Called MysqlGetPrimary; Called (ConsulGetPrimary None);
                    Called (ConsulGetPrimary (Some 1%Z));
                    Called (ConsulCreateSession "FAILOVER_IN_PROGRESS" 120);
                    Called (ConsulLock "FAILOVER_IN_PROGRESS" "node-1"
                              "session-1");
                    Called (ConsulHealthService REPLICA true);
                    Called (MysqlFailover ["10.0.0.2"])]
                   [(DEBUG, "could not determine primary via mysqld status: %s");
                    (DEBUG, "could not determine primary via Consul: %s");
                    (INFO, "[on_change] Executing failover with candidates: %s")])
                [Text "session-1"; Says true; Instances [Some "10.0.0.2"];
                 Fails CalledProcessError; Done]
                [Says true; Instances [Some "10.0.0.2"];
                 Fails CalledProcessError; Done]
                [Instances [Some "10.0.0.2"]; Fails CalledProcessError; Done]
                [] "session-1" (Raise CalledProcessError) (Ret tt)
                eq_refl eq_refl eq_refl eq_refl) as H.
  cbv zeta in H.
  destruct H as [H _].
  - vm_compute. reflexivity.
  - discriminate.
  - vm_compute. reflexivity.
  - rewrite H. split; reflexivity.
Defined.

(** Another node holds the failover lock, which clears at the second poll;
    the role is resolved anew, stays UNASSIGNED, and the handler exits 1. *)
Lemma on_change_resolves_again_witness :
  fst (on_change 2 node1 (scripted UNASSIGNED true waited_failover_script))
    = Raise (SystemExit 1) /\
  fst (failover_phase 2 node1
         (scripted UNASSIGNED true
            [Text "session-2"; Says false; Says true; Done; Says false]))
    = Ret tt.
Proof.
  split.
  - pose proof (proj1 (on_change_resolves_again (C := Scripted) node1) 2
                  (scripted UNASSIGNED true waited_failover_script)
                  (snd (is_primary node1
                          (scripted UNASSIGNED true waited_failover_script)))
                  (snd (failover_phase 2 node1
                          (after_call
                             (snd (is_primary node1
                                     (scripted UNASSIGNED true
                                        waited_failover_script)))
                             (ConsulGetPrimary (Some 1%Z))
                             [Text "session-2"; Says false; Says true; Done;
                              Says false; Fails MySQLError;
                              Fails UnknownPrimary])))
                  (snd (is_primary node1
                          (with_state
                             (snd (failover_phase 2 node1
                                     (after_call
                                        (snd (is_primary node1
                                                (scripted UNASSIGNED true
                                                   waited_failover_script)))
                                        (ConsulGetPrimary (Some 1%Z))
                                        [Text "session-2"; Says false;
                                         Says true; Done; Says false;
                                         Fails MySQLError;
                                         Fails UnknownPrimary])))
                             UNASSIGNED)))
                  [Text "session-2"; Says false; Says true; Done; Says false;
                   Fails MySQLError; Fails UnknownPrimary]
                  (Ret false)) as H.
    destruct H as [_ [_ H]];
      [vm_compute; reflexivity | vm_compute; reflexivity
      | vm_compute; reflexivity | vm_compute; reflexivity |].
    refine (proj1 (H false eq_refl _)). vm_compute. reflexivity.
  - erewrite (proj2 (on_change_resolves_again (C := Scripted) node1) 2 2
                (scripted UNASSIGNED true
                   [Text "session-2"; Says false; Says true; Done; Says false])
                _ [Says false; Says true; Done; Says false]
                [Says true; Done; Says false] "session-2" eq_refl eq_refl).
    + reflexivity.
    + eapply clears_later with (w1 := [Done; Says false]) (w2 := [Says false]);
        [reflexivity | reflexivity |].
      apply clears_now with (w := []). reflexivity.
    + lia.
Defined.



(** * Further properties *)

(** ** The calls a handler makes *)

Create HintDb calls.

Section CallFacts.

Context {C : Collaborators}.

Variable P : Event -> bool.

Lemma calls_ret {A : Type} (a : A) : calls_only P (ret a).
Proof. intros s. exists []. simpl. rewrite app_nil_r. auto. Qed.

Lemma calls_raise {A : Type} (e : exn) : calls_only P (@raise _ A e).
Proof. intros s. exists []. simpl. rewrite app_nil_r. auto. Qed.

Lemma calls_sys_exit {A : Type} (n : Z) : calls_only P (@sys_exit _ A n).
Proof. apply calls_raise. Qed.

Lemma calls_get_state : calls_only P get_state.
Proof. intros s. exists []. simpl. rewrite app_nil_r. auto. Qed.

Lemma calls_set_state (r : Role) : calls_only P (set_state r).
Proof. intros s. exists []. simpl. rewrite app_nil_r. auto. Qed.

Lemma calls_log (l : Level) (msg : string) : calls_only P (log l msg).
Proof. intros s. exists []. simpl. rewrite app_nil_r. auto. Qed.

Lemma calls_mkdir : calls_only P mkdir_init_lock.
Proof.
  intros s. exists []. unfold mkdir_init_lock.
  destruct (init_lock s); simpl; rewrite app_nil_r; auto.
Qed.

Lemma calls_rmdir : calls_only P rmdir_init_lock.
Proof.
  intros s. exists []. unfold rmdir_init_lock.
  destruct (init_lock s); simpl; rewrite app_nil_r; auto.
Qed.

Lemma calls_call {R : Type} (op : Op R) :
  P (Called op) = true -> calls_only P (call op).
Proof.
  intros HP s. exists [Called op]. unfold call.
  destruct (answer R op (world s)); simpl. rewrite HP. auto.
Qed.

Lemma calls_bind {A B : Type} (m : M A) (k : A -> M B) :
  calls_only P m -> (forall a, calls_only P (k a)) ->
  calls_only P (bind m k).
Proof.
  intros Hm Hk s. unfold bind. destruct (Hm s) as [l [Hl Hp]].
  destruct (m s) as [[a|e|] s']; simpl in *; eauto.
  destruct (Hk a s') as [l' [Hl' Hp']].
  exists (l ++ l')%list. rewrite Hl', Hl, app_assoc, forallb_app, Hp, Hp'.
  auto.
Qed.

Lemma calls_try_except {A : Type} (m : M A) (catches : exn -> bool)
    (h : exn -> M A) :
  calls_only P m -> (forall e, calls_only P (h e)) ->
  calls_only P (try_except m catches h).
Proof.
  intros Hm Hh s. unfold try_except. destruct (Hm s) as [l [Hl Hp]].
  destruct (m s) as [[a|e|] s']; simpl in *; eauto.
  destruct (catches e); simpl; eauto.
  destruct (Hh e s') as [l' [Hl' Hp']].
  exists (l ++ l')%list. rewrite Hl', Hl, app_assoc, forallb_app, Hp, Hp'.
  auto.
Qed.

Lemma calls_try_finally {A : Type} (m : M A) (f : M unit) :
  calls_only P m -> calls_only P f -> calls_only P (try_finally m f).
Proof.
  intros Hm Hf s. unfold try_finally. destruct (Hm s) as [l [Hl Hp]].
  destruct (m s) as [[a|e|] s']; simpl in *; eauto;
    destruct (Hf s') as [l' [Hl' Hp']];
    destruct (f s') as [[u|e'|] s'']; simpl in *;
    exists (l ++ l')%list; rewrite Hl', Hl, app_assoc, forallb_app, Hp, Hp';
    auto.
Qed.

End CallFacts.

#[export] Hint Resolve calls_ret calls_raise calls_sys_exit calls_get_state
  calls_set_state calls_log calls_mkdir calls_rmdir : calls.

(** Decompose a handler into its calls; a call is accepted when [P] holds of
    it by computation. *)
Ltac calls_step :=
  first
    [ apply calls_bind; [ | intros ? ]
    | apply calls_try_except; [ | intros ? ]
    | apply calls_try_finally
    | apply calls_call; reflexivity
    | match goal with
      | |- calls_only _ (if ?b then _ else _) => destruct b
      | |- calls_only _ (match ?x with _ => _ end) => destruct x
      end
    | solve [ auto with calls ] ].

Ltac calls := repeat calls_step.

Section CallHandlers.

Context {C : Collaborators}.

Lemma forallb_negb_existsb (P : Event -> bool) (l : list Event) :
  forallb (fun e => negb (P e)) l = true -> existsb P l = false.
Proof.
  induction l as [|e l IH]; simpl; [reflexivity|].
  destruct (P e); simpl; [discriminate|exact IH].
Qed.

(** Two descriptions of the calls made from the same state agree. *)
Lemma calls_agree (P : Event -> bool) (t : list Event) (s : St)
    (l l' : list Event) :
  t = (trace s ++ l)%list -> t = (trace s ++ l')%list ->
  forallb (fun e => negb (P e)) l' = true -> existsb P l = true -> False.
Proof.
  intros H1 H2 Hall Hex. rewrite H1 in H2. apply app_inv_head in H2.
  subst l'. rewrite (forallb_negb_existsb P l Hall) in Hex. discriminate.
Qed.

(** The calls made by [k] after [m] has run, seen from the state [m]
    started in. *)
Lemma calls_after {A B : Type} (P : Event -> bool) (m : M A) (k : M B)
    (s s' : St) (r : Res A) :
  calls_only P m -> calls_only P k -> m s = (r, s') ->
  exists l, trace (snd (k s')) = (trace s ++ l)%list /\ forallb P l = true.
Proof.
  intros Hm Hk Hrun. destruct (Hm s) as [l [Hl Hp]]. rewrite Hrun in Hl.
  simpl in Hl. destruct (Hk s') as [l' [Hl' Hp']].
  exists (l ++ l')%list. rewrite Hl', Hl, app_assoc, forallb_app, Hp, Hp'.
  auto.
Qed.

Lemma calls_is_primary (P : Event -> bool) (node : Node) :
  P (Called MysqlGetPrimary) = true ->
  P (Called (ConsulGetPrimary None)) = true ->
  calls_only P (is_primary node).
Proof.
  intros H1 H2.
  unfold is_primary, is_primary_via_mysqld, is_primary_via_consul.
  repeat first
    [ apply calls_bind; [ | intros ? ]
    | apply calls_try_except; [ | intros ? ]
    | apply calls_call; assumption
    | match goal with
      | |- calls_only _ (if ?b then _ else _) => destruct b
      | |- calls_only _ (match ?x with _ => _ end) => destruct x
      end
    | solve [ auto with calls ] ].
Qed.

Lemma calls_update_and_publish (P : Event -> bool) (node : Node) :
  P (Called CpUpdate) = true -> P (Called CpReload) = true ->
  P (Called (ConsulPut PRIMARY_KEY (hostname node))) = true ->
  calls_only P (update_and_publish node).
Proof.
  intros H1 H2 H3. unfold update_and_publish.
  apply calls_bind; [apply calls_call; assumption|]. intros [|].
  - apply calls_bind; [apply calls_call; assumption|]. intros _.
    apply calls_call; assumption.
  - apply calls_ret.
Qed.

Lemma calls_wait_for_unlock (P : Event -> bool) (fuel : nat) :
  P (Called (ConsulIsLocked FAILOVER_KEY)) = true ->
  P (Called (Sleep 3)) = true ->
  calls_only P (wait_for_unlock fuel).
Proof.
  intros H1 H2. induction fuel as [|fuel IH]; simpl.
  - intros s. exists []. simpl. rewrite app_nil_r. auto.
  - apply calls_bind; [apply calls_call; assumption|]. intros [|]; simpl.
    + apply calls_bind; [apply calls_call; assumption|]. intros _. exact IH.
    + apply calls_ret.
Qed.

End CallHandlers.

(** ** Failover *)

Section FailoverFacts.

Context {C : Collaborators}.

(** [on_change] as a tree over the answers to its first four questions. *)
Lemma on_change_tree (fuel : nat) (node : Node) (s : St) :
  on_change fuel node s
  = match is_primary node s with
    | (Ret true, s0) =>
        bind (log DEBUG "[on_change] this node is primary, no failover required.")
          (fun _ => update_and_publish node) s0
    | (Ret false, s0) =>
        match answer _ (ConsulGetPrimary (Some 1%Z)) (world s0) with
        | (Ret _, w0) =>
            (Ret tt,
             after_log (after_call s0 (ConsulGetPrimary (Some 1%Z)) w0) DEBUG
               "[on_change] primary is already healthy, no failover required")
        | (Raise e, w0) =>
            let s1 := after_call s0 (ConsulGetPrimary (Some 1%Z)) w0 in
            if catches_unknown_primary e then
              match answer _ (ConsulCreateSession FAILOVER_KEY 120) w0 with
              | (Ret session_id, w1) =>
                  let s2 := after_call s1 (ConsulCreateSession FAILOVER_KEY 120)
                              w1 in
                  match answer _ (ConsulLock FAILOVER_KEY (hostname node)
                                    session_id) w1 with
                  | (Ret true, w2) =>
                      bind (try_finally (execute_failover node)
                              (call (ConsulUnlock FAILOVER_KEY session_id)))
                        (fun _ => after_failover node)
                        (after_call s2
                           (ConsulLock FAILOVER_KEY (hostname node) session_id)
                           w2)
                  | (Ret false, w2) =>
                      bind (wait_for_unlock fuel)
                        (fun _ => after_failover node)
                        (after_log
                           (after_call s2
                              (ConsulLock FAILOVER_KEY (hostname node)
                                 session_id) w2)
                           INFO
                           "[on_change] Failover in progress on another node, waiting to complete.")
                  | (Raise e', w2) =>
                      (Raise e',
                       after_call s2
                         (ConsulLock FAILOVER_KEY (hostname node) session_id)
                         w2)
                  | (OutOfFuel, w2) =>
                      (OutOfFuel,
                       after_call s2
                         (ConsulLock FAILOVER_KEY (hostname node) session_id)
                         w2)
                  end
              | (Raise e', w1) =>
                  (Raise e',
                   after_call s1 (ConsulCreateSession FAILOVER_KEY 120) w1)
              | (OutOfFuel, w1) =>
                  (OutOfFuel,
                   after_call s1 (ConsulCreateSession FAILOVER_KEY 120) w1)
              end
            else (Raise e, s1)
        | (OutOfFuel, w0) =>
            (OutOfFuel, after_call s0 (ConsulGetPrimary (Some 1%Z)) w0)
        end
    | (Raise e, s0) => (Raise e, s0)
    | (OutOfFuel, s0) => (OutOfFuel, s0)
    end.
Proof.
  unfold on_change. unfold bind at 1.
  destruct (is_primary node s) as [[[|]|e|] s0]; try reflexivity.
  unfold bind at 1, try_except, bind at 1, call.
  destruct (answer _ (ConsulGetPrimary (Some 1%Z)) (world s0))
    as [[x|e|] w0]; try reflexivity.
  cbv zeta. destruct (catches_unknown_primary e); [|reflexivity].
  unfold ret at 1. cbv beta iota.
  unfold bind at 1, failover_phase, bind at 1, call. cbn [world].
  destruct (answer _ (ConsulCreateSession FAILOVER_KEY 120) w0)
    as [[session_id|e'|] w1]; try reflexivity.
  unfold bind at 1. cbn [world].
  destruct (answer _ (ConsulLock FAILOVER_KEY (hostname node) session_id) w1)
    as [[[|]|e'|] w2]; try reflexivity.
Qed.

Lemma calls_after_failover (P : Event -> bool) (node : Node) :
  P (Called MysqlGetPrimary) = true ->
  P (Called (ConsulGetPrimary None)) = true ->
  P (Called CpUpdate) = true -> P (Called CpReload) = true ->
  P (Called (ConsulPut PRIMARY_KEY (hostname node))) = true ->
  calls_only P (after_failover node).
Proof.
  intros H1 H2 H3 H4 H5. unfold after_failover.
  apply calls_bind; [apply calls_set_state|]. intros _.
  apply calls_bind; [apply calls_is_primary; assumption|]. intros [|].
  - apply calls_update_and_publish; assumption.
  - apply calls_bind; [apply calls_get_state|]. intros st.
    destruct (Role_eqb st UNASSIGNED); calls.
Qed.

(** X1. [on_change] calls [mysql.failover] only when [is_primary] answered
    False, the lookup of a healthy primary raised UnknownPrimary, and this
    node acquired the failover lock: on every other path, whatever the
    collaborators answer, no failover is executed. *)
Theorem failover_only_under_lock (node : Node) (fuel : nat) (s : St)
    (l : list Event) :
  trace (snd (on_change fuel node s)) = (trace s ++ l)%list ->
  existsb is_failover_call l = true ->
  exists (s0 : St) (w0 w1 w2 : World) (session_id : string),
    is_primary node s = (Ret false, s0) /\
    answer _ (ConsulGetPrimary (Some 1%Z)) (world s0)
      = (Raise UnknownPrimary, w0) /\
    answer _ (ConsulCreateSession FAILOVER_KEY 120) w0
      = (Ret session_id, w1) /\
    answer _ (ConsulLock FAILOVER_KEY (hostname node) session_id) w1
      = (Ret true, w2).
Proof.
  intros Htr Hex. rewrite on_change_tree in Htr.
  set (nf := fun e => negb (is_failover_call e)).
  assert (Hprim : calls_only nf (is_primary node))
    by (apply calls_is_primary; reflexivity).
  assert (Hafter : calls_only nf (after_failover node))
    by (apply calls_after_failover; reflexivity).
  destruct (Hprim s) as [l0 [Hl0 Hnf0]].
  destruct (is_primary node s) as [[[|]|e|] s0] eqn:Hp; simpl in Hl0.
  - exfalso.
    assert (Hk : calls_only nf
                   (bind (log DEBUG
                            "[on_change] this node is primary, no failover required.")
                      (fun _ => update_and_publish node))).
    { apply calls_bind; [apply calls_log|]. intros _.
      apply calls_update_and_publish; reflexivity. }
    destruct (Hk s0) as [l1 [Hl1 Hnf1]]. rewrite Hl1, Hl0 in Htr.
    rewrite <- app_assoc in Htr. apply app_inv_head in Htr. subst l.
    rewrite (forallb_negb_existsb is_failover_call) in Hex;
      [discriminate|]. fold nf. rewrite forallb_app, Hnf0, Hnf1. reflexivity.
  - destruct (answer _ (ConsulGetPrimary (Some 1%Z)) (world s0))
      as [[x|e|] w0] eqn:Hg.
    + exfalso. simpl in Htr. rewrite Hl0, <- app_assoc in Htr.
      apply app_inv_head in Htr. subst l.
      rewrite (forallb_negb_existsb is_failover_call) in Hex;
        [discriminate|]. fold nf. rewrite forallb_app, Hnf0. reflexivity.
    + cbv zeta in Htr.
      destruct (catches_unknown_primary e) eqn:He.
      * assert (e = UnknownPrimary) by (destruct e; try discriminate; reflexivity).
        subst e.
        destruct (answer _ (ConsulCreateSession FAILOVER_KEY 120) w0)
          as [[session_id|e'|] w1] eqn:Hs.
        -- destruct (answer _ (ConsulLock FAILOVER_KEY (hostname node)
                                 session_id) w1) as [[[|]|e'|] w2] eqn:Hlk.
           ++ exists s0, w0, w1, w2, session_id. auto.
           ++ exfalso.
              assert (Hk : calls_only nf
                             (bind (wait_for_unlock fuel)
                                (fun _ => after_failover node))).
              { apply calls_bind;
                  [apply calls_wait_for_unlock; reflexivity|].
                intros _. exact Hafter. }
              match type of Htr with
              | trace (snd (_ ?st)) = _ =>
                  destruct (Hk st) as [l1 [Hl1 Hnf1]]
              end.
              rewrite Hl1 in Htr. simpl in Htr.
              rewrite Hl0, <- !app_assoc in Htr.
              apply app_inv_head in Htr. subst l.
              rewrite (forallb_negb_existsb is_failover_call) in Hex;
                [discriminate|]. fold nf.
              rewrite !forallb_app, Hnf0, Hnf1. reflexivity.
           ++ exfalso. simpl in Htr. rewrite Hl0, <- !app_assoc in Htr.
              apply app_inv_head in Htr. subst l.
              rewrite (forallb_negb_existsb is_failover_call) in Hex;
                [discriminate|]. fold nf. rewrite forallb_app, Hnf0.
              reflexivity.
           ++ exfalso. simpl in Htr. rewrite Hl0, <- !app_assoc in Htr.
              apply app_inv_head in Htr. subst l.
              rewrite (forallb_negb_existsb is_failover_call) in Hex;
                [discriminate|]. fold nf. rewrite forallb_app, Hnf0.
              reflexivity.
        -- exfalso. simpl in Htr. rewrite Hl0, <- !app_assoc in Htr.
           apply app_inv_head in Htr. subst l.
           rewrite (forallb_negb_existsb is_failover_call) in Hex;
             [discriminate|]. fold nf. rewrite forallb_app, Hnf0.
           reflexivity.
        -- exfalso. simpl in Htr. rewrite Hl0, <- !app_assoc in Htr.
           apply app_inv_head in Htr. subst l.
           rewrite (forallb_negb_existsb is_failover_call) in Hex;
             [discriminate|]. fold nf. rewrite forallb_app, Hnf0.
           reflexivity.
      * exfalso. simpl in Htr. rewrite Hl0, <- !app_assoc in Htr.
        apply app_inv_head in Htr. subst l.
        rewrite (forallb_negb_existsb is_failover_call) in Hex;
          [discriminate|]. fold nf. rewrite forallb_app, Hnf0. reflexivity.
    + exfalso. simpl in Htr. rewrite Hl0, <- !app_assoc in Htr.
      apply app_inv_head in Htr. subst l.
      rewrite (forallb_negb_existsb is_failover_call) in Hex;
        [discriminate|]. fold nf. rewrite forallb_app, Hnf0. reflexivity.
  - exfalso. simpl in Htr. rewrite Hl0 in Htr.
    apply app_inv_head in Htr. subst l.
    rewrite (forallb_negb_existsb is_failover_call) in Hex;
      [discriminate|]. exact Hnf0.
  - exfalso. simpl in Htr. rewrite Hl0 in Htr.
    apply app_inv_head in Htr. subst l.
    rewrite (forallb_negb_existsb is_failover_call) in Hex;
      [discriminate|]. exact Hnf0.
Qed.

(** X2. The wait for another node's failover has no upper bound: in a world
    where every poll finds the lock held and every sleep returns, the loop is
    still running after any number of polls, each followed by a sleep of
    three seconds. *)
Theorem wait_for_unlock_never_gives_up (held : World -> Prop) :
  (forall w, held w ->
     exists w1 w2,
       answer _ (ConsulIsLocked FAILOVER_KEY) w = (Ret true, w1) /\
       answer _ (Sleep 3) w1 = (Ret tt, w2) /\ held w2) ->
  forall (fuel : nat) (s : St),
    held (world s) ->
    fst (wait_for_unlock fuel s) = OutOfFuel /\
    trace (snd (wait_for_unlock fuel s)) = (trace s ++ poll_rounds fuel)%list.
Proof.
  intros Hheld fuel. induction fuel as [|fuel IH]; intros s Hs.
  - simpl. rewrite app_nil_r. auto.
  - destruct (Hheld _ Hs) as [w1 [w2 [Hpoll [Hsleep Hw2]]]].
    assert (Hstep : wait_for_unlock (S fuel) s
                    = wait_for_unlock fuel
                        (after_call
                           (after_call s (ConsulIsLocked FAILOVER_KEY) w1)
                           (Sleep 3) w2)).
    { simpl. unfold bind, call. rewrite Hpoll. simpl. rewrite Hsleep.
      reflexivity. }
    rewrite Hstep.
    destruct (IH (after_call (after_call s (ConsulIsLocked FAILOVER_KEY) w1)
                    (Sleep 3) w2) Hw2) as [H1 H2].
    rewrite H1, H2. simpl. rewrite <- !app_assoc. auto.
Qed.

(** X3. When the lock is reported free at the [k]-th poll, the wait ends
    normally for any bound of at least [k] polls, after exactly [k] polls
    and [k - 1] sleeps, without a sleep after the last poll and without
    touching [cp.state]. *)
Theorem wait_for_unlock_polls (k fuel : nat) (s s' : St) :
  clears k s s' -> k <= fuel ->
  wait_for_unlock fuel s = (Ret tt, s') /\
  trace s' = (trace s ++ poll_rounds (k - 1)
                ++ [Called (ConsulIsLocked FAILOVER_KEY)])%list /\
  cp_state s' = cp_state s.
Proof.
  intros Hc Hle. split; [exact (wait_for_unlock_clears k s s' Hc fuel Hle)|].
  clear fuel Hle.
  induction Hc as [s w Hfree | k s s' w1 w2 Hheld Hsleep Hrest [IHt IHc]].
  - simpl. auto.
  - split.
    + rewrite IHt. simpl. rewrite <- !app_assoc.
      destruct k as [|k]; [inversion Hrest|].
      simpl. rewrite Nat.sub_0_r. reflexivity.
    + rewrite IHc. reflexivity.
Qed.

(** The list comprehension over the catalog entries. *)
Lemma addresses_complete (ips : list string) (s : St) :
  addresses (map Some ips) s = (Ret ips, s).
Proof.
  induction ips as [|a ips IH]; simpl; [reflexivity|].
  unfold bind. rewrite IH. reflexivity.
Qed.

Lemma addresses_missing (nodes : list instance) (s : St) :
  In None nodes -> addresses nodes s = (Raise KeyError, s).
Proof.
  induction nodes as [|[a|] nodes IH]; simpl; intros Hin.
  - contradiction.
  - destruct Hin as [Hin|Hin]; [discriminate|].
    unfold bind. rewrite (IH Hin). reflexivity.
  - reflexivity.
Qed.

(** X4. The failover is given the addresses of all passing replicas of the
    catalog, in catalog order, also when there is none: an empty candidate
    list is passed on as it is.  If one catalog entry has no address the
    attempt ends in KeyError before [mysql.failover] is called. *)
Theorem execute_failover_candidates (node : Node) (s : St)
    (nodes : list instance) (w1 : World) :
  answer _ (ConsulHealthService REPLICA true) (world s) = (Ret nodes, w1) ->
  (forall ips, nodes = map Some ips ->
     trace (snd (execute_failover node s))
       = (trace s ++ [Called (ConsulHealthService REPLICA true);
                      Called (MysqlFailover ips)])%list) /\
  (In None nodes ->
     execute_failover node s
       = (Raise KeyError,
          after_call s (ConsulHealthService REPLICA true) w1)).
Proof.
  intros Hq. split.
  - intros ips ->. unfold execute_failover. unfold bind at 1, call at 1.
    rewrite Hq. unfold bind at 1. rewrite addresses_complete.
    unfold bind, log, call. simpl.
    destruct (answer _ (MysqlFailover ips) w1). simpl.
    rewrite <- app_assoc. reflexivity.
  - intros Hin. unfold execute_failover. unfold bind at 1, call at 1.
    rewrite Hq. unfold bind at 1. rewrite (addresses_missing nodes _ Hin).
    reflexivity.
Qed.

End FailoverFacts.

(** ** Backups, further *)

Section BackupFurther.

Context {C : Collaborators}.


(** X6. [is_binlog_stale] answers False only when [show master status]
    returned a first row with a File and the value recorded under
    LAST_BINLOG_KEY is that very file name; an empty result, a row without
    File and a key never written all count as stale. *)
Theorem is_binlog_stale_false_only_if_recorded (node : Node) (s : St) :
  fst (is_binlog_stale node s) = Ret false ->
  exists (r : row) (rest : list row) (current : string) (w3 w4 : World),
    answer _ (MysqlQuery "show master status") (world s) = (Ret (r :: rest), w3) /\
    dict_get "File" r = Some current /\
    answer _ (ConsulGet LAST_BINLOG_KEY) w3 = (Ret (Some current), w4).
Proof.
  unfold is_binlog_stale, try_except, bind, call, first_row_File, ret, raise.
  destruct (answer _ (MysqlQuery "show master status") (world s))
    as [[[|r rest]|e|] w3] eqn:Hq; simpl; try discriminate.
  destruct (dict_get "File" r) as [current|] eqn:Hfile; simpl;
    try discriminate.
  destruct (answer _ (ConsulGet LAST_BINLOG_KEY) w3)
    as [[[recorded|]|e|] w4] eqn:Hget; simpl; try discriminate.
  - destruct (String.eqb current recorded) eqn:Heq; simpl; try discriminate.
    apply String.eqb_eq in Heq. subst recorded. intros _.
    exists r, rest, current, w3, w4. auto.
  - destruct (catches_IndexError_KeyError e); simpl; discriminate.
Qed.

(** X7. [is_backup_running] never leaves the lock file open: once the file
    is opened and the probe does not hang, closing it is the last call.  It
    answers True only when taking the lock, or releasing it again, raised
    IOError. *)
Theorem is_backup_running_closes (s s1 : St) (f : fd) :
  open_backup_lock s = (Ret f, s1) ->
  fst (is_backup_running s) <> OutOfFuel ->
  (exists before,
     trace (snd (is_backup_running s))
       = (before ++ [Called (FileClose f)])%list) /\
  (fst (is_backup_running s) = Ret true ->
   exists w2,
     answer _ (Flock f (Z.lor LOCK_EX LOCK_NB)) (world s1) = (Raise IOError, w2)
     \/ exists w3,
          answer _ (Flock f (Z.lor LOCK_EX LOCK_NB)) (world s1) = (Ret tt, w2)
          /\ answer _ (Flock f LOCK_UN) w2 = (Raise IOError, w3)).
Proof.
  intros Hopen.
  remember (is_backup_running s) as run eqn:Hrun.
  unfold is_backup_running in Hrun. unfold bind at 1 in Hrun.
  rewrite Hopen in Hrun.
  unfold try_finally, try_except, bind, call, ret in Hrun.
  destruct (answer _ (Flock f (Z.lor LOCK_EX LOCK_NB)) (world s1))
    as [[[]|e|] w2] eqn:Hex; cbn [world trace fst snd] in Hrun.
  - destruct (answer _ (Flock f LOCK_UN) w2) as [[[]|e|] w3] eqn:Hun;
      cbn [world trace fst snd] in Hrun.
    + destruct (answer _ (FileClose f) w3) as [[[]|e|] w4];
        subst run; cbn [fst snd trace]; intros Hfuel; (split; [eauto|]);
        try discriminate; try (now elim Hfuel).
    + destruct e; cbn [catches_IOError world trace fst snd] in Hrun;
        destruct (answer _ (FileClose f) w3) as [[[]|e|] w4];
        subst run; cbn [fst snd trace]; intros Hfuel; (split; [eauto|]);
        try discriminate; try (now elim Hfuel);
        intros _; exists w2; right; exists w3; auto.
    + subst run. intros Hfuel. now elim Hfuel.
  - destruct e; cbn [catches_IOError world trace fst snd] in Hrun;
      destruct (answer _ (FileClose f) w2) as [[[]|e|] w4];
      subst run; cbn [fst snd trace]; intros Hfuel; (split; [eauto|]);
      try discriminate; try (now elim Hfuel);
      intros _; exists w2; left; auto.
  - subst run. intros Hfuel. now elim Hfuel.
Qed.

(** X8. [set_backup_ttl] registers the TTL check at most once, and only
    after a first [pass_check] answered False; when the second
    [pass_check] fails as well it logs an error and returns False, and
    [write_snapshot] goes on to take the backup all the same. *)
Theorem write_snapshot_ignores_ttl_failure (node : Node) (s : St)
    (w1 w2 w3 : World) :
  answer _ (ConsulPassCheck BACKUP_TTL_KEY) (world s) = (Ret false, w1) ->
  answer _ (ConsulRegisterCheck BACKUP_TTL_KEY BACKUP_TTL) w1 = (Ret tt, w2) ->
  answer _ (ConsulPassCheck BACKUP_TTL_KEY) w2 = (Ret false, w3) ->
  let s0 := after_log
              (after_call
                 (after_call
                    (after_call s (ConsulPassCheck BACKUP_TTL_KEY) w1)
                    (ConsulRegisterCheck BACKUP_TTL_KEY BACKUP_TTL) w2)
                 (ConsulPassCheck BACKUP_TTL_KEY) w3)
              ERROR "Could not register health check for %s" in
  set_backup_ttl node s = (Ret false, s0) /\
  exists rest,
    trace (snd (write_snapshot node s))
      = (trace s0 ++ Called (FileOpen lockfile_name "r+") :: rest)%list.
Proof.
  intros H1 H2 H3 s0.
  assert (Hset : set_backup_ttl node s = (Ret false, s0)).
  { unfold set_backup_ttl, bind, call, log, ret. rewrite H1. simpl.
    rewrite H2. simpl. rewrite H3. reflexivity. }
  split; [exact Hset|].
  unfold write_snapshot. unfold bind at 1. rewrite Hset.
  assert (Hgrow : forall st, exists rest,
            trace (snd (create_snapshot node st))
              = (trace st ++ Called (FileOpen lockfile_name "r+") :: rest)%list).
  { intros st.
    unfold create_snapshot. unfold bind at 1, open_backup_lock, try_except, call.
    destruct (answer _ (FileOpen lockfile_name "r+") (world st))
      as [[g|e|] w] eqn:Ho; cbn [world trace fst snd].
    - match goal with
      | |- exists rest, trace (snd (?m ?st')) = _ =>
          assert (Hm : calls_only (fun _ => true) m)
      end.
      { unfold create_snapshot_body, create_snapshot_cleanup, first_row_File.
        calls. }
      match goal with
      | |- exists rest, trace (snd (?m ?st')) = _ =>
          destruct (Hm st') as [l [Hl _]]; rewrite Hl
      end.
      simpl. rewrite <- app_assoc. simpl. eauto.
    - destruct (catches_IOError e); cbn [world trace fst snd].
      + destruct (answer _ (FileOpen lockfile_name "w") w) as [[g|e'|] w'];
          cbn [world trace fst snd].
        * match goal with
          | |- exists rest, trace (snd (?m ?st')) = _ =>
              assert (Hm : calls_only (fun _ => true) m)
          end.
          { unfold create_snapshot_body, create_snapshot_cleanup,
              first_row_File. calls. }
          match goal with
          | |- exists rest, trace (snd (?m ?st')) = _ =>
              destruct (Hm st') as [l [Hl _]]; rewrite Hl
          end.
          simpl. rewrite <- !app_assoc. simpl. eauto.
        * simpl. rewrite <- app_assoc. simpl. eauto.
        * simpl. rewrite <- app_assoc. simpl. eauto.
      + simpl. eauto.
    - simpl. eauto. }
  destruct (Hgrow s0) as [rest Hrest].
  exists rest. unfold bind.
  destruct (create_snapshot node s0) as [[v|e|] s']; simpl in *; exact Hrest.
Qed.

(** The body of [create_snapshot] up to its second look at the binlog, when
    every call before it returns. *)
Lemma create_snapshot_body_until_query (node : Node) (f g : fd) (s : St)
    (backup_id : string) (rows : list row)
    (w1 w2 w3 w4 w5 w6 w7 w8 : World) :
  answer _ (Flock f (Z.lor LOCK_EX LOCK_NB)) (world s) = (Ret tt, w1) ->
  answer _ (UtcNowStrftime BACKUP_NAME) w1 = (Ret backup_id, w2) ->
  answer _ (FileOpen "/tmp/backup.tar" "w") w2 = (Ret g, w3) ->
  answer _ (Innobackupex (repl_user node) (repl_password node) g) w3
    = (Ret tt, w4) ->
  answer _ (FileClose g) w4 = (Ret tt, w5) ->
  answer _ (MantaPutBackup backup_id "/tmp/backup.tar") w5 = (Ret tt, w6) ->
  answer _ (ConsulPut LAST_BACKUP_KEY backup_id) w6 = (Ret tt, w7) ->
  answer _ (MysqlQuery "show master status") w7 = (Ret rows, w8) ->
  exists s8,
    world s8 = w8 /\
    trace s8
      = (trace s ++
         [Called (Flock f (Z.lor LOCK_EX LOCK_NB));
          Called (UtcNowStrftime BACKUP_NAME);
          Called (FileOpen "/tmp/backup.tar" "w");
          Called (Innobackupex (repl_user node) (repl_password node) g);
          Called (FileClose g);
          Called (MantaPutBackup backup_id "/tmp/backup.tar");
          Called (ConsulPut LAST_BACKUP_KEY backup_id);
          Called (MysqlQuery "show master status")])%list /\
    create_snapshot_body node f s
      = bind (first_row_File rows)
          (fun binlog_file =>
             bind (log DEBUG "setting LAST_BINLOG_KEY in Consul")
               (fun _ =>
                  bind (call (ConsulPut LAST_BINLOG_KEY binlog_file))
                    (fun _ => ret None))) s8.
Proof.
  intros H1 H2 H3 H4 H5 H6 H7 H8.
  exists (mkSt (cp_state s) (init_lock s) w8
            (trace s ++
               [Called (Flock f (Z.lor LOCK_EX LOCK_NB));
                Called (UtcNowStrftime BACKUP_NAME);
                Called (FileOpen "/tmp/backup.tar" "w");
                Called (Innobackupex (repl_user node) (repl_password node) g);
                Called (FileClose g);
                Called (MantaPutBackup backup_id "/tmp/backup.tar");
                Called (ConsulPut LAST_BACKUP_KEY backup_id);
                Called (MysqlQuery "show master status")])
            (logs s ++
               [(INFO, "snapshot completed, uploading to object store");
                (DEBUG,
                 "snapshot uploaded to %s/%s, setting LAST_BACKUP_KEY in Consul")])).
  split; [reflexivity|]. split; [reflexivity|].
  unfold create_snapshot_body.
  simpl in H1.
  unfold try_finally, bind, call, log. simpl. rewrite H1. simpl.
  rewrite H2. simpl. rewrite H3. simpl. rewrite H4. simpl. rewrite H5.
  simpl. rewrite H6. simpl. rewrite H7. simpl. rewrite H8.
  rewrite <- !app_assoc. reflexivity.
Qed.

(** X9. When every step of a backup succeeds, [create_snapshot] records
    under LAST_BACKUP_KEY the identifier under which the archive was
    uploaded, after the upload returned and the archive file was closed, and
    under LAST_BINLOG_KEY the binlog file it reads after that; it falls off
    its end, returning None. *)
Theorem create_snapshot_body_records (node : Node) (f g : fd) (s : St)
    (backup_id binlog_file : string) (r : row) (rest : list row)
    (w1 w2 w3 w4 w5 w6 w7 w8 w9 : World) :
  answer _ (Flock f (Z.lor LOCK_EX LOCK_NB)) (world s) = (Ret tt, w1) ->
  answer _ (UtcNowStrftime BACKUP_NAME) w1 = (Ret backup_id, w2) ->
  answer _ (FileOpen "/tmp/backup.tar" "w") w2 = (Ret g, w3) ->
  answer _ (Innobackupex (repl_user node) (repl_password node) g) w3
    = (Ret tt, w4) ->
  answer _ (FileClose g) w4 = (Ret tt, w5) ->
  answer _ (MantaPutBackup backup_id "/tmp/backup.tar") w5 = (Ret tt, w6) ->
  answer _ (ConsulPut LAST_BACKUP_KEY backup_id) w6 = (Ret tt, w7) ->
  answer _ (MysqlQuery "show master status") w7 = (Ret (r :: rest), w8) ->
  dict_get "File" r = Some binlog_file ->
  answer _ (ConsulPut LAST_BINLOG_KEY binlog_file) w8 = (Ret tt, w9) ->
  fst (create_snapshot_body node f s) = Ret None /\
  trace (snd (create_snapshot_body node f s))
    = (trace s ++
       [Called (Flock f (Z.lor LOCK_EX LOCK_NB));
        Called (UtcNowStrftime BACKUP_NAME);
        Called (FileOpen "/tmp/backup.tar" "w");
        Called (Innobackupex (repl_user node) (repl_password node) g);
        Called (FileClose g);
        Called (MantaPutBackup backup_id "/tmp/backup.tar");
        Called (ConsulPut LAST_BACKUP_KEY backup_id);
        Called (MysqlQuery "show master status");
        Called (ConsulPut LAST_BINLOG_KEY binlog_file)])%list.
Proof.
  intros H1 H2 H3 H4 H5 H6 H7 H8 Hfile H9.
  destruct (create_snapshot_body_until_query node f g s backup_id (r :: rest)
              w1 w2 w3 w4 w5 w6 w7 w8 H1 H2 H3 H4 H5 H6 H7 H8)
    as [s8 [Hw [Ht Hrun]]].
  rewrite Hrun. unfold first_row_File, bind, ret, log, call. rewrite Hfile.
  cbn [world]. rewrite Hw, H9. cbn [fst snd trace]. rewrite Ht.
  rewrite <- app_assoc. auto.
Qed.

(** X10. When [show master status] has no row after the upload, the backup
    has been uploaded and recorded under LAST_BACKUP_KEY, but
    [create_snapshot] ends in IndexError: nothing is written under
    LAST_BINLOG_KEY, the lock is released, and the exception, which the
    [except IOError] clause does not catch, reaches the caller. *)
Theorem create_snapshot_without_binlog_row (node : Node) (f g : fd)
    (s s1 : St) (backup_id : string)
    (w1 w2 w3 w4 w5 w6 w7 w8 w9 w10 : World) :
  open_backup_lock s = (Ret f, s1) ->
  answer _ (Flock f (Z.lor LOCK_EX LOCK_NB)) (world s1) = (Ret tt, w1) ->
  answer _ (UtcNowStrftime BACKUP_NAME) w1 = (Ret backup_id, w2) ->
  answer _ (FileOpen "/tmp/backup.tar" "w") w2 = (Ret g, w3) ->
  answer _ (Innobackupex (repl_user node) (repl_password node) g) w3
    = (Ret tt, w4) ->
  answer _ (FileClose g) w4 = (Ret tt, w5) ->
  answer _ (MantaPutBackup backup_id "/tmp/backup.tar") w5 = (Ret tt, w6) ->
  answer _ (ConsulPut LAST_BACKUP_KEY backup_id) w6 = (Ret tt, w7) ->
  answer _ (MysqlQuery "show master status") w7 = (Ret [], w8) ->
  answer _ (Flock f LOCK_UN) w8 = (Ret tt, w9) ->
  answer _ (FileClose f) w9 = (Ret tt, w10) ->
  fst (create_snapshot node s) = Raise IndexError /\
  exit_status (fst (create_snapshot node s)) = Some 1%Z /\
  trace (snd (create_snapshot node s))
    = (trace s1 ++
       [Called (Flock f (Z.lor LOCK_EX LOCK_NB));
        Called (UtcNowStrftime BACKUP_NAME);
        Called (FileOpen "/tmp/backup.tar" "w");
        Called (Innobackupex (repl_user node) (repl_password node) g);
        Called (FileClose g);
        Called (MantaPutBackup backup_id "/tmp/backup.tar");
        Called (ConsulPut LAST_BACKUP_KEY backup_id);
        Called (MysqlQuery "show master status");
        Called (Flock f LOCK_UN); Called (FileClose f)])%list.
Proof.
  intros Hopen H1 H2 H3 H4 H5 H6 H7 H8 Hun Hclose.
  destruct (create_snapshot_body_until_query node f g s1 backup_id []
              w1 w2 w3 w4 w5 w6 w7 w8 H1 H2 H3 H4 H5 H6 H7 H8)
    as [s8 [Hw [Ht Hrun]]].
  assert (Hr : create_snapshot node s
               = (Raise IndexError,
                  after_call
                    (after_log
                       (after_call (after_log s8 DEBUG "unlocking backup lock")
                          (Flock f LOCK_UN) w9)
                       DEBUG "closing backup file")
                    (FileClose f) w10)).
  { unfold create_snapshot. unfold bind at 1. rewrite Hopen.
    unfold try_finally, try_except. rewrite Hrun.
    unfold first_row_File, bind at 1, raise. cbn [catches_IOError].
    unfold create_snapshot_cleanup, bind, log, call. cbn [world].
    rewrite Hw, Hun. cbn [world]. rewrite Hclose. reflexivity. }
  rewrite Hr. cbn [fst snd exit_status trace after_call after_log].
  rewrite Ht, <- !app_assoc. auto.
Qed.

(** X11. [snapshot_task] runs [innobackupex] or uploads to the object store
    only when [is_snapshot_node] answered True and [is_backup_running]
    answered False; whatever the collaborators answer, a node that does not
    resolve as primary, or that finds the advisory lock taken, makes no
    backup. *)
Theorem backup_only_by_free_primary (node : Node) (s : St) (l : list Event) :
  trace (snd (snapshot_task node s)) = (trace s ++ l)%list ->
  existsb is_backup_call l = true ->
  exists s1 s2 : St,
    is_snapshot_node node s = (Ret true, s1) /\
    is_backup_running s1 = (Ret false, s2).
Proof.
  intros Htr Hex.
  set (nb := fun e => negb (is_backup_call e)).
  assert (Hprim : calls_only nb (is_snapshot_node node))
    by (apply calls_is_primary; reflexivity).
  assert (Hrunning : calls_only nb is_backup_running).
  { unfold is_backup_running, open_backup_lock. calls. }
  destruct (Hprim s) as [l0 [Hl0 Hnb0]].
  unfold snapshot_task in Htr. unfold bind at 1 in Htr.
  destruct (is_snapshot_node node s) as [[[|]|e|] s1] eqn:Hp;
    cbn [fst snd negb] in Hl0, Htr.
  - destruct (Hrunning s1) as [l1 [Hl1 Hnb1]].
    unfold bind at 1 in Htr.
    destruct (is_backup_running s1) as [[[|]|e|] s2] eqn:Hrun;
      cbn [fst snd] in Hl1, Htr.
    2: { exists s1, s2. auto. }
    all: exfalso; unfold ret in Htr; cbn [fst snd] in Htr;
      rewrite Hl1, Hl0, <- app_assoc in Htr; apply app_inv_head in Htr;
      subst l;
      rewrite (forallb_negb_existsb is_backup_call) in Hex;
      [discriminate|]; fold nb; rewrite forallb_app, Hnb0, Hnb1; reflexivity.
  - exfalso. unfold bind, ret in Htr. cbn [fst snd] in Htr.
    rewrite Hl0 in Htr. apply app_inv_head in Htr. subst l.
    rewrite (forallb_negb_existsb is_backup_call) in Hex; [discriminate|].
    exact Hnb0.
  - exfalso. rewrite Hl0 in Htr. apply app_inv_head in Htr. subst l.
    rewrite (forallb_negb_existsb is_backup_call) in Hex; [discriminate|].
    exact Hnb0.
  - exfalso. rewrite Hl0 in Htr. apply app_inv_head in Htr. subst l.
    rewrite (forallb_negb_existsb is_backup_call) in Hex; [discriminate|].
    exact Hnb0.
Qed.

End BackupFurther.

(** ** Initialization and health, further *)

Create HintDb cp_state.

Section StateFacts.

Context {C : Collaborators}.

Lemma state_ret {A : Type} (a : A) : keeps_cp_state (ret a).
Proof. intros s; reflexivity. Qed.

Lemma state_raise {A : Type} (e : exn) : keeps_cp_state (@raise _ A e).
Proof. intros s; reflexivity. Qed.

Lemma state_log (l : Level) (msg : string) : keeps_cp_state (log l msg).
Proof. intros s; reflexivity. Qed.

Lemma state_call {R : Type} (op : Op R) : keeps_cp_state (call op).
Proof.
  intros s. unfold call. destruct (answer R op (world s)); reflexivity.
Qed.

Lemma state_bind {A B : Type} (m : M A) (k : A -> M B) :
  keeps_cp_state m -> (forall a, keeps_cp_state (k a)) ->
  keeps_cp_state (bind m k).
Proof.
  intros Hm Hk s. unfold bind. specialize (Hm s).
  destruct (m s) as [[a|e|] s']; simpl in *; auto.
  rewrite Hk. exact Hm.
Qed.

Lemma state_try_except {A : Type} (m : M A) (catches : exn -> bool)
    (h : exn -> M A) :
  keeps_cp_state m -> (forall e, keeps_cp_state (h e)) ->
  keeps_cp_state (try_except m catches h).
Proof.
  intros Hm Hh s. unfold try_except. specialize (Hm s).
  destruct (m s) as [[a|e|] s']; simpl in *; auto.
  destruct (catches e); simpl; auto. rewrite Hh. exact Hm.
Qed.

Lemma state_try_finally {A : Type} (m : M A) (f : M unit) :
  keeps_cp_state m -> keeps_cp_state f ->
  keeps_cp_state (try_finally m f).
Proof.
  intros Hm Hf s. unfold try_finally. specialize (Hm s).
  destruct (m s) as [[a|e|] s']; simpl in *; auto;
    specialize (Hf s'); destruct (f s') as [[u|e'|] s'']; simpl in *; congruence.
Qed.

End StateFacts.

#[export] Hint Resolve state_ret state_raise state_log state_call : cp_state.

Ltac state_step :=
  first
    [ apply state_bind; [ | intros ? ]
    | apply state_try_except; [ | intros ? ]
    | apply state_try_finally
    | match goal with
      | |- keeps_cp_state (if ?b then _ else _) => destruct b
      | |- keeps_cp_state (match ?x with _ => _ end) => destruct x
      end
    | solve [ auto with cp_state ] ].

Ltac keeps_state := repeat state_step.

Section InitializationFurther.

Context {C : Collaborators}.

Lemma state_write_snapshot (node : Node) :
  keeps_cp_state (write_snapshot node).
Proof.
  unfold write_snapshot, set_backup_ttl, create_snapshot, open_backup_lock,
    create_snapshot_body, create_snapshot_cleanup, first_row_File.
  keeps_state.
Qed.

(** X12. Once the claim on the primary record is won, [cp.state] is PRIMARY
    however the rest of [run_as_primary] ends, also when the database setup
    or the first backup raises.  When the claim is lost, [run_as_primary]
    returns False having made no other call and leaves [cp.state] as it
    was. *)
Theorem run_as_primary_state (node : Node) (s : St) (w : World) :
  (answer _ (ConsulMarkAsPrimary (name node)) (world s) = (Ret true, w) ->
   cp_state (snd (run_as_primary node s)) = PRIMARY) /\
  (answer _ (ConsulMarkAsPrimary (name node)) (world s) = (Ret false, w) ->
   run_as_primary node s
     = (Ret false, after_call s (ConsulMarkAsPrimary (name node)) w)).
Proof.
  split; intros Hm; unfold run_as_primary; unfold bind at 1, call at 1;
    rewrite Hm; cbv beta iota; cbn [negb]; [|reflexivity].
  unfold bind at 1, set_state. cbv beta iota.
  match goal with
  | |- cp_state (snd (?m ?st)) = _ =>
      assert (Hk : keeps_cp_state m);
      [ unfold write_snapshot, set_backup_ttl, create_snapshot,
          open_backup_lock, create_snapshot_body, create_snapshot_cleanup,
          first_row_File; keeps_state
      | rewrite (Hk st); reflexivity ]
  end.
Qed.

(** X13. [run_as_replica] marks the node REPLICA before it looks the primary
    up, so [cp.state] is REPLICA however it ends; it writes nothing to the
    coordination store; and it sets replication up against the address the
    store returned. *)
Theorem run_as_replica_follows_store (node : Node) (s : St) :
  cp_state (snd (run_as_replica node s)) = REPLICA /\
  (exists l,
     trace (snd (run_as_replica node s)) = (trace s ++ l)%list /\
     existsb is_store_write l = false) /\
  (forall (x primary_ip : pystr) (w1 : World),
     answer _ (ConsulGetPrimary (Some 30%Z)) (world s)
       = (Ret (x, primary_ip), w1) ->
     trace (snd (run_as_replica node s))
       = (trace s ++ [Called (ConsulGetPrimary (Some 30%Z));
                      Called (MysqlSetupReplication primary_ip)])%list).
Proof.
  split; [|split].
  - unfold run_as_replica. unfold bind at 1, log. cbv beta iota.
    unfold bind at 1, set_state. cbv beta iota.
    match goal with
    | |- cp_state (snd (?m ?st)) = _ =>
        assert (Hk : keeps_cp_state m) by keeps_state;
        rewrite (Hk st); reflexivity
    end.
  - assert (Hc : calls_only (fun e => negb (is_store_write e))
                   (run_as_replica node)).
    { unfold run_as_replica. calls. }
    destruct (Hc s) as [l [Hl Hall]]. exists l. split; [exact Hl|].
    apply forallb_negb_existsb. exact Hall.
  - intros x primary_ip w1 Hq. unfold run_as_replica, bind, log, set_state,
      call. cbn [world]. rewrite Hq. cbn [snd world].
    destruct (answer _ (MysqlSetupReplication primary_ip) w1). simpl.
    rewrite <- app_assoc. reflexivity.
Qed.



(** X15. An exception of the bootstrap that its handlers do not name (any
    but MySQLError on the primary path, any but UnknownPrimary and
    MySQLError on the replica path; a failed [innobackupex] is one) ends the
    invocation with the lock directory still in place: the next invocation
    takes the node for initialized and does not run the bootstrap again. *)
Theorem unnamed_failure_keeps_marker (node : Node) (s s1 s2 : St) (p : bool)
    (e : exn) :
  init_lock s = false ->
  is_primary node (with_init_lock s true) = (Ret p, s1) ->
  (p || Role_eqb (cp_state s1) UNASSIGNED = true /\
   run_as_primary node s1 = (Raise e, s2) /\ catches_MySQLError e = false)
  \/
  (p || Role_eqb (cp_state s1) UNASSIGNED = false /\
   run_as_replica node s1 = (Raise e, s2) /\
   catches_UnknownPrimary_MySQLError e = false) ->
  assert_initialized_for_state node s = (Raise e, s2) /\
  init_lock s2 = true /\
  assert_initialized_for_state node s2 = (Ret true, s2).
Proof.
  intros Hl Hp Hfail.
  assert (Hl1 : init_lock s1 = true).
  { pose proof (keeps_is_primary node (with_init_lock s true)) as K.
    rewrite Hp in K. exact K. }
  assert (Hboth : assert_initialized_for_state node s = (Raise e, s2) /\
                  init_lock s2 = true).
  { rewrite (gate_open node s Hl).
    unfold initialize_for_state, bind, get_state. rewrite Hp.
    cbv beta iota.
    destruct Hfail as [[Hc [Hrun He]]|[Hc [Hrun He]]]; rewrite Hc;
      [ pose proof (keeps_run_as_primary node s1) as K
      | pose proof (keeps_run_as_replica node s1) as K ];
      rewrite Hrun in K; simpl in K; rewrite Hl1 in K;
      unfold try_except; rewrite Hrun, He; auto. }
  destruct Hboth as [Hrun Hl2]. split; [exact Hrun|]. split; [exact Hl2|].
  apply gate_closed. exact Hl2.
Qed.


(** X17. The health check of an initialized node changes nothing in the
    database, takes no backup, and writes nothing to the coordination store
    but the renewal of its session. *)
Theorem health_is_read_only (node : Node) (s : St) :
  init_lock s = true ->
  exists l,
    trace (snd (health node s)) = (trace s ++ l)%list /\
    forallb (fun e =>
               negb (is_database_write e) && negb (is_backup_call e) &&
               (negb (is_store_write e) ||
                match e with
                | Called ConsulRenewSession => true
                | Called _ => false
                end)) l = true.
Proof.
  intros Hl. unfold health. unfold bind at 1.
  rewrite (gate_closed node s Hl). cbv beta iota. cbn [negb].
  match goal with
  | |- exists l, trace (snd (?m s)) = _ /\ forallb ?P l = true =>
      assert (Hk : calls_only P m)
  end.
  { apply calls_bind; [apply calls_is_primary; reflexivity|].
    intros [|].
    - calls.
    - apply calls_bind.
      + unfold is_replica. apply calls_bind;
          [apply calls_is_primary; reflexivity|]. intros b. apply calls_ret.
      + intros [|]; calls. }
  exact (Hk s).
Qed.

End InitializationFurther.

(** ** pre_start *)

Section PreStartFacts.

Import PreStart.

Context {P : PreCollaborators}.

(** X18. [pre_start] initializes a new database only when the data
    directory has no [mysql] directory and the coordination store names no
    snapshot, and it restores a snapshot only when the directory is missing,
    the store named that snapshot and fetching it from the object store
    returned: an existing database is never initialized or overwritten,
    whatever the collaborators answer. *)
Theorem pre_start_spares_existing_data (s : PreSt) (l : list PreEvent) :
  pre_trace (snd (pre_start s)) = (pre_trace s ++ l)%list ->
  (existsb is_initialize_db l = true ->
   exists w1 w2 w3 w4 last_backup,
     pre_answer _ TakeOwnership (pre_world s) = (Ret tt, w1) /\
     pre_answer _ Render w1 = (Ret tt, w2) /\
     pre_answer _ (IsDir (path_join datadir "mysql")) w2 = (Ret false, w3) /\
     pre_answer _ HasSnapshot w3 = (Ret last_backup, w4) /\
     truthy last_backup = false) /\
  (existsb is_restore l = true ->
   exists w1 w2 w3 w4 w5 last_backup,
     pre_answer _ TakeOwnership (pre_world s) = (Ret tt, w1) /\
     pre_answer _ Render w1 = (Ret tt, w2) /\
     pre_answer _ (IsDir (path_join datadir "mysql")) w2 = (Ret false, w3) /\
     pre_answer _ HasSnapshot w3 = (Ret last_backup, w4) /\
     truthy last_backup = true /\
     pre_answer _ (GetBackup last_backup) w4 = (Ret tt, w5) /\
     In (PreCalled (RestoreFromSnapshot last_backup)) l).
Proof.
  remember (pre_start s) as run eqn:Hrun.
  unfold pre_start, pbind, pcall, plog, pret in Hrun.
  destruct (pre_answer _ TakeOwnership (pre_world s)) as [[[]|e|] w1] eqn:H1;
    cbn [pre_world pre_trace] in Hrun.
  2,3: subst run; cbn [snd pre_trace]; intros H; apply app_inv_head in H;
    subst l; split; intros Hx; simpl in Hx; discriminate.
  destruct (pre_answer _ Render w1) as [[[]|e|] w2] eqn:H2;
    cbn [pre_world pre_trace] in Hrun.
  2,3: subst run; cbn [snd pre_trace]; rewrite <- ?app_assoc; intros H;
    apply app_inv_head in H; subst l; split; intros Hx; simpl in Hx;
    discriminate.
  destruct (pre_answer _ (IsDir (path_join datadir "mysql")) w2)
    as [[[|]|e|] w3] eqn:H3; cbn [negb pre_world pre_trace] in Hrun.
  1,3,4: subst run; cbn [snd pre_trace]; rewrite <- ?app_assoc; intros H;
    apply app_inv_head in H; subst l; split; intros Hx; simpl in Hx;
    discriminate.
  destruct (pre_answer _ HasSnapshot w3) as [[last_backup|e|] w4] eqn:H4;
    cbn [pre_world pre_trace] in Hrun.
  2,3: subst run; cbn [snd pre_trace]; rewrite <- ?app_assoc; intros H;
    apply app_inv_head in H; subst l; split; intros Hx; simpl in Hx;
    discriminate.
  destruct (truthy last_backup) eqn:Ht; cbn [pre_world pre_trace] in Hrun.
  - destruct (pre_answer _ (GetBackup last_backup) w4) as [[[]|e|] w5] eqn:H5;
      cbn [pre_world pre_trace] in Hrun.
    2,3: subst run; cbn [snd pre_trace]; rewrite <- ?app_assoc; intros H;
      apply app_inv_head in H; subst l; split; intros Hx; simpl in Hx;
      discriminate.
    destruct (pre_answer _ (RestoreFromSnapshot last_backup) w5)
      as [r w6]; cbn [pre_world pre_trace] in Hrun.
    subst run. cbn [snd pre_trace]. rewrite <- ?app_assoc.
    intros H. apply app_inv_head in H. subst l.
    split; intros Hx; [simpl in Hx; discriminate|].
    exists w1, w2, w3, w4, w5, last_backup. repeat split; auto.
    simpl. repeat (first [left; reflexivity | right]).
  - destruct (pre_answer _ InitializeDb w4) as [[[|]|e|] w5] eqn:H5;
      cbn [negb pre_world pre_trace] in Hrun;
      subst run; cbn [snd pre_trace]; rewrite <- ?app_assoc; intros H;
      apply app_inv_head in H; subst l;
      (split; intros Hx; [|simpl in Hx; discriminate]);
      exists w1, w2, w3, w4, last_backup; auto.
Qed.

End PreStartFacts.

(** ** Runs of the further properties *)

Lemma failover_only_under_lock_witness :
  exists (s0 : @St Scripted) (w0 w1 w2 : list Reply) (session_id : string),
    is_primary node1 (scripted UNASSIGNED true failed_failover_script)
      = (Ret false, s0) /\
    scripted_answer _ (ConsulGetPrimary (Some 1%Z)) (world s0)
      = (Raise UnknownPrimary, w0) /\
    scripted_answer _ (ConsulCreateSession FAILOVER_KEY 120) w0
      = (Ret session_id, w1) /\
    scripted_answer _ (ConsulLock FAILOVER_KEY (hostname node1) session_id) w1
      = (Ret true, w2).
Proof.
  apply (failover_only_under_lock (C := Scripted) node1 0
           (scripted UNASSIGNED true failed_failover_script)
           (trace (snd (on_change 0 node1
                          (scripted UNASSIGNED true failed_failover_script)))));
    vm_compute; reflexivity.
Defined.

Lemma wait_for_unlock_never_gives_up_witness :
  fst (wait_for_unlock 4 (@mkSt AlwaysLocked REPLICA true tt [] []))
    = OutOfFuel /\
  trace (snd (wait_for_unlock 4 (@mkSt AlwaysLocked REPLICA true tt [] [])))
    = ([] ++ poll_rounds 4)%list.
Proof.
  apply (wait_for_unlock_never_gives_up (C := AlwaysLocked) (fun _ => True)).
  - intros [] _. exists tt, tt. repeat split.
  - exact I.
Defined.

Lemma wait_for_unlock_polls_witness :
  wait_for_unlock 5 (scripted REPLICA true [Says true; Done; Says false])
    = (Ret tt,
       after_call
         (after_call
            (after_call (scripted REPLICA true [Says true; Done; Says false])
               (ConsulIsLocked FAILOVER_KEY) [Done; Says false])
            (Sleep 3) [Says false])
         (ConsulIsLocked FAILOVER_KEY) []).
Proof.
  refine (proj1 (wait_for_unlock_polls (C := Scripted) 2 5 _ _ _ _)).
  - eapply clears_later with (w1 := [Done; Says false]) (w2 := [Says false]);
      [reflexivity | reflexivity |].
    apply clears_now with (w := []). reflexivity.
  - lia.
Defined.

(** No replica passes its health check: the failover is called with an
    empty list of candidates. *)
Lemma execute_failover_candidates_witness :
  trace (snd (execute_failover node1
                (scripted REPLICA true [Instances []; Done])))
    = [Called (ConsulHealthService REPLICA true); Called (MysqlFailover [])].
Proof.
  exact (proj1 (execute_failover_candidates (C := Scripted) node1
                  (scripted REPLICA true [Instances []; Done]) [] [Done]
                  eq_refl) [] eq_refl).
Defined.


Lemma is_binlog_stale_false_only_if_recorded_witness :
  exists (r : row) (rest : list row) (current : string) (w3 w4 : list Reply),
    scripted_answer _ (MysqlQuery "show master status")
      [Rows [[("File", "bin.1")]]; Value (Some "bin.1")]
      = (Ret (r :: rest), w3) /\
    dict_get "File" r = Some current /\
    scripted_answer _ (ConsulGet "mysql-last-binlog") w3
      = (Ret (Some current), w4).
Proof.
  apply (is_binlog_stale_false_only_if_recorded (C := Scripted) node1
           (scripted PRIMARY true
              [Rows [[("File", "bin.1")]]; Value (Some "bin.1")])).
  vm_compute. reflexivity.
Defined.

Lemma is_backup_running_closes_witness :
  exists before,
    trace (snd (is_backup_running
                  (scripted PRIMARY true [Handle 3; Fails IOError; Done])))
      = (before ++ [Called (FileClose 3)])%list.
Proof.
  refine (proj1 (is_backup_running_closes (C := Scripted)
                   (scripted PRIMARY true [Handle 3; Fails IOError; Done])
                   (snd (open_backup_lock
                           (scripted PRIMARY true
                              [Handle 3; Fails IOError; Done])))
                   3 _ _)).
  - vm_compute. reflexivity.
  - vm_compute. discriminate.
Defined.

Lemma write_snapshot_ignores_ttl_failure_witness :
  fst (set_backup_ttl node1 (scripted PRIMARY true unregistered_ttl_script))
    = Ret false.
Proof.
  pose proof (write_snapshot_ignores_ttl_failure (C := Scripted) node1
                (scripted PRIMARY true unregistered_ttl_script)
                (tl unregistered_ttl_script)
                (tl (tl unregistered_ttl_script))
                (tl (tl (tl unregistered_ttl_script)))) as H.
  cbv zeta in H.
  destruct H as [H _];
    [vm_compute; reflexivity | vm_compute; reflexivity
    | vm_compute; reflexivity |].
  rewrite H. reflexivity.
Defined.

Lemma create_snapshot_body_records_witness :
  fst (create_snapshot_body node1 4 (scripted PRIMARY true full_backup_script))
    = Ret None /\
  trace (snd (create_snapshot_body node1 4
                (scripted PRIMARY true full_backup_script)))
    = ([] ++
       [Called (Flock 4 (Z.lor LOCK_EX LOCK_NB));
        Called (UtcNowStrftime "mysql-backup-%Y-%m-%dT%H-%M-%SZ");
        Called (FileOpen "/tmp/backup.tar" "w");
        Called (Innobackupex "repl" "secret" 5);
        Called (FileClose 5);
        Called (MantaPutBackup "mysql-backup-2016" "/tmp/backup.tar");
        Called (ConsulPut "mysql-last-backup" "mysql-backup-2016");
        Called (MysqlQuery "show master status");
        Called (ConsulPut "mysql-last-binlog" "bin.3")])%list.
Proof.
  apply (create_snapshot_body_records (C := Scripted) node1 4 5
           (scripted PRIMARY true full_backup_script)
           "mysql-backup-2016" "bin.3" [("File", "bin.3")] []
           (tl full_backup_script)
           (tl (tl full_backup_script))
           (tl (tl (tl full_backup_script)))
           (tl (tl (tl (tl full_backup_script))))
           (tl (tl (tl (tl (tl full_backup_script)))))
           (tl (tl (tl (tl (tl (tl full_backup_script))))))
           (tl (tl (tl (tl (tl (tl (tl full_backup_script)))))))
           [Done] []);
    vm_compute; reflexivity.
Defined.

Lemma create_snapshot_without_binlog_row_witness :
  fst (create_snapshot node1 (scripted PRIMARY true no_binlog_backup_script))
    = Raise IndexError /\
  exit_status (fst (create_snapshot node1
                      (scripted PRIMARY true no_binlog_backup_script)))
    = Some 1%Z.
Proof.
  pose proof (create_snapshot_without_binlog_row (C := Scripted) node1 4 5
                (scripted PRIMARY true no_binlog_backup_script)
                (snd (open_backup_lock
                        (scripted PRIMARY true no_binlog_backup_script)))
                "mysql-backup-2016"
                (tl (tl no_binlog_backup_script))
                (tl (tl (tl no_binlog_backup_script)))
                (tl (tl (tl (tl no_binlog_backup_script))))
                (tl (tl (tl (tl (tl no_binlog_backup_script)))))
                (tl (tl (tl (tl (tl (tl no_binlog_backup_script))))))
                (tl (tl (tl (tl (tl (tl (tl no_binlog_backup_script)))))))
                (tl (tl (tl (tl (tl (tl (tl (tl no_binlog_backup_script))))))))
                [Done; Done] [Done] []) as H.
  destruct H as [H1 [H2 _]]; try (vm_compute; reflexivity).
  split; [exact H1 | exact H2].
Defined.

Lemma backup_only_by_free_primary_witness :
  exists s1 s2 : @St Scripted,
    is_snapshot_node node1 (scripted PRIMARY true backup_tick_script)
      = (Ret true, s1) /\
    is_backup_running s1 = (Ret false, s2).
Proof.
  apply (backup_only_by_free_primary (C := Scripted) node1
           (scripted PRIMARY true backup_tick_script)
           (trace (snd (snapshot_task node1
                          (scripted PRIMARY true backup_tick_script)))));
    vm_compute; reflexivity.
Defined.

(** The claim is won and stopping the inherited replication fails: the node
    is marked PRIMARY all the same. *)
Lemma run_as_primary_state_witness :
  cp_state (snd (run_as_primary node1
                   (scripted UNASSIGNED true
                      [Says true; Connection None; Fails MySQLError])))
    = PRIMARY.
Proof.
  refine (proj1 (run_as_primary_state (C := Scripted) node1
                   (scripted UNASSIGNED true
                      [Says true; Connection None; Fails MySQLError])
                   [Connection None; Fails MySQLError]) _).
  vm_compute. reflexivity.
Defined.

Lemma run_as_replica_follows_store_witness :
  trace (snd (run_as_replica node1
                (scripted UNASSIGNED true (tl replica_bootstrap_script))))
    = ([] ++ [Called (ConsulGetPrimary (Some 30%Z));
              Called (MysqlSetupReplication (Some "10.0.0.2"))])%list.
Proof.
  refine (proj2 (proj2 (run_as_replica_follows_store (C := Scripted) node1
                          (scripted UNASSIGNED true
                             (tl replica_bootstrap_script))))
            (Some "node-2") (Some "10.0.0.2") [Done] _).
  vm_compute. reflexivity.
Defined.


Lemma unnamed_failure_keeps_marker_witness :
  fst (assert_initialized_for_state node1
         (scripted UNASSIGNED false failed_first_backup_script))
    = Raise CalledProcessError /\
  fst (assert_initialized_for_state node1
         (snd (run_as_primary node1
                 (snd (is_primary node1
                         (scripted UNASSIGNED true
                            failed_first_backup_script))))))
    = Ret true.
Proof.
  pose proof (unnamed_failure_keeps_marker (C := Scripted) node1
                (scripted UNASSIGNED false failed_first_backup_script)
                (snd (is_primary node1
                        (scripted UNASSIGNED true failed_first_backup_script)))
                (snd (run_as_primary node1
                        (snd (is_primary node1
                                (scripted UNASSIGNED true
                                   failed_first_backup_script)))))
                false CalledProcessError) as H.
  destruct H as [H1 [_ H3]].
  - reflexivity.
  - vm_compute. reflexivity.
  - left. split; [vm_compute; reflexivity|].
    split; [vm_compute; reflexivity|reflexivity].
  - rewrite H1, H3. split; exact eq_refl.
Defined.


Lemma health_is_read_only_witness :
  exists l,
    trace (snd (health node1 (scripted PRIMARY true [Done; Rows [[]]])))
      = ([] ++ l)%list /\
    forallb (fun e =>
               negb (is_database_write e) && negb (is_backup_call e) &&
               (negb (is_store_write e) ||
                match e with
                | Called ConsulRenewSession => true
                | Called _ => false
                end)) l = true.
Proof.
  exact (health_is_read_only (C := Scripted) node1
           (scripted PRIMARY true [Done; Rows [[]]]) eq_refl).
Defined.

(** A node with an empty data directory and no snapshot in the store: the
    database is initialized. *)
Lemma pre_start_spares_existing_data_witness :
  exists (w1 w2 w3 w4 : list Reply) (last_backup : pystr),
    PreStart.pre_answer (PreCollaborators := PreStart.PreScripted) _
      PreStart.TakeOwnership [Done; Done; Says false; Value None; Says true]
      = (Ret tt, w1) /\
    PreStart.pre_answer (PreCollaborators := PreStart.PreScripted) _
      PreStart.Render w1 = (Ret tt, w2) /\
    PreStart.pre_answer (PreCollaborators := PreStart.PreScripted) _
      (PreStart.IsDir "/var/lib/mysql/mysql") w2 = (Ret false, w3) /\
    PreStart.pre_answer (PreCollaborators := PreStart.PreScripted) _
      PreStart.HasSnapshot w3 = (Ret last_backup, w4) /\
    truthy last_backup = false.
Proof.
  refine (proj1 (pre_start_spares_existing_data (P := PreStart.PreScripted)
                   (PreStart.pre_scripted
                      [Done; Done; Says false; Value None; Says true])
                   (PreStart.pre_trace
                      (snd (PreStart.pre_start
                              (PreStart.pre_scripted
                                 [Done; Done; Says false; Value None;
                                  Says true])))) _) _);
    vm_compute; reflexivity.
Defined.
